(** * Homebox Inventory Search: a shallow embedding of [homebox_search.py]

    The tool class [Tools] of [homebox_search.py] offers four read-only
    operations over a remote Homebox API.  Each one checks the configured
    base URL, normalises it, issues one [requests.get], and turns the parsed
    JSON into a text report; every exception raised inside its [try] block
    is turned into an error string.

    The embedding follows the source line by line:
    - strings are [string] (sequences of bytes), Python [int]s are [Z];
    - parsed JSON is the inductive type [json]; a JSON object is an
      association list in document order (the order matters to [repr]);
      numbers with a fraction are outside the model;
    - the operators the source applies to parsed JSON ([in], subscripts,
      [len], iteration, truthiness, [str]) are defined on every shape of
      value, raising what CPython 3.11 raises on the wrong shape;
    - exceptions are values of [exn], threaded by the error monad [outcome];
    - the network is a function from requests to responses, and each
      operation runs in the monad [IO], which logs the requests sent. *)

From Stdlib Require Import ZArith Lia List Bool Ascii DecimalString.
From stdpp Require Import gmap strings.
Import ListNotations.

(** ** Strings *)

Module Str.

(** Truth value of a [str]: non-empty. *)
Definition nonempty (s : string) : bool :=
  match s with EmptyString => false | String _ _ => true end.

(** [s.rstrip(c)] for a one-character argument: every trailing [c] goes. *)
Fixpoint rstrip (c : ascii) (s : string) : string :=
  match s with
  | EmptyString => EmptyString
  | String a s' =>
      match rstrip c s' with
      | EmptyString => if Ascii.eqb a c then EmptyString else String a EmptyString
      | r => String a r
      end
  end.

(** [s.endswith(suf)]: some tail of [s] is [suf]. *)
Fixpoint endswith (s suf : string) : bool :=
  String.eqb s suf ||
  match s with
  | EmptyString => false
  | String _ s' => endswith s' suf
  end.

(** [needle in hay] on two strings. *)
Fixpoint is_substring (needle hay : string) : bool :=
  String.prefix needle hay ||
  match hay with
  | EmptyString => false
  | String _ hay' => is_substring needle hay'
  end.

(** [n] copies of the character [c]. *)
Fixpoint replicate (n : nat) (c : ascii) : string :=
  match n with
  | O => EmptyString
  | S n' => String c (replicate n' c)
  end.

(** The string without its last character (the empty string stays). *)
Fixpoint init (s : string) : string :=
  match s with
  | EmptyString => EmptyString
  | String a EmptyString => EmptyString
  | String a s' => String a (init s')
  end.

(** [str(n)] for an [int]: signed decimal. *)
Definition of_Z (n : Z) : string := NilZero.string_of_int (Z.to_int n).

Definition nl : string := String (ascii_of_nat 10) EmptyString.
Definition dquote : ascii := ascii_of_nat 34.

End Str.

(** ** Configuration: [Tools.Valves] *)

Record Valves : Type := mkValves {
  homebox_url : string;
  cf_client_id : string;
  cf_client_secret : string
}.

(** [Valves()] as [__init__] builds it: every field defaults to the empty
    string. *)
Definition default_valves : Valves := mkValves "" "" "".

(** ** URL normalisation (lines 68-71, repeated in each operation)
<<
    base_url = self.valves.homebox_url.rstrip('/')
    if not base_url.endswith('/api'):
        base_url += '/api'
>> *)
Definition normalize_base_url (url : string) : string :=
  let base_url := Str.rstrip "/" url in
  if negb (Str.endswith base_url "/api") then base_url +:+ "/api" else base_url.

(** The rule as the specification words it: strip exactly one trailing
    slash if present, then append [/api] unless the trimmed URL already ends
    with it. *)
Definition strip_one_slash (url : string) : string :=
  if Str.endswith url "/" then Str.init url else url.

Definition normalize_spec (url : string) : string :=
  let trimmed := strip_one_slash url in
  if Str.endswith trimmed "/api" then trimmed else trimmed +:+ "/api".

(** ** Header construction: [_get_headers] (lines 38-54) *)
Definition _get_headers (self : Valves) : gmap string string :=
  let headers : gmap string string :=
    <["Accept" := "application/json"]> (<["Content-Type" := "application/json"]> ∅) in
  if Str.nonempty (cf_client_id self) && Str.nonempty (cf_client_secret self) then
    <["CF-Access-Client-Secret" := cf_client_secret self]>
      (<["CF-Access-Client-Id" := cf_client_id self]> headers)
  else headers.

(** ** Exceptions and the error monad *)

(** The exception classes the operations can meet.  [RequestException]
    stands for [requests.RequestException] and all its subclasses
    ([ConnectionError], [HTTPError], [Timeout], ...); the others are the
    built-in classes raised by operators on parsed JSON.  Each carries what
    [str(e)] prints. *)
Inductive exn : Type :=
| RequestException (msg : string)
| KeyError (key_repr : string)
| IndexError (msg : string)
| TypeError (msg : string)
| ValueError (msg : string)
| ZeroDivisionError (msg : string).

(** [str(e)] *)
Definition str_exn (e : exn) : string :=
  match e with
  | RequestException msg => msg
  | KeyError key_repr => key_repr
  | IndexError msg => msg
  | TypeError msg => msg
  | ValueError msg => msg
  | ZeroDivisionError msg => msg
  end.

(** [isinstance(e, requests.RequestException)] *)
Definition is_RequestException (e : exn) : bool :=
  match e with RequestException _ => true | _ => false end.

(** [isinstance(e, Exception)]: every class above derives from [Exception]. *)
Definition is_Exception (e : exn) : bool := true.

Inductive outcome (A : Type) : Type :=
| Ok (a : A)
| Raise (e : exn).
Arguments Ok {A} a.
Arguments Raise {A} e.

#[global] Instance outcome_ret : MRet outcome := fun A a => Ok a.
#[global] Instance outcome_bind : MBind outcome := fun A B f m =>
  match m with
  | Ok a => f a
  | Raise e => Raise e
  end.

(** ** Parsed JSON and the Python operators used on it *)

#[local] Set Warnings "-register-all".

Inductive json : Type :=
| JNull
| JBool (b : bool)
| JInt (n : Z)
| JStr (s : string)
| JList (items : list json)
| JDict (fields : list (string * json)).

Module Py.

(** Lookup in a [dict] with string keys. *)
Fixpoint dict_get (k : string) (d : list (string * json)) : option json :=
  match d with
  | [] => None
  | (k', v) :: d' => if String.eqb k k' then Some v else dict_get k d'
  end.

(** The [dict] without the key [k]. *)
Fixpoint dict_remove (k : string) (d : list (string * json)) : list (string * json) :=
  match d with
  | [] => []
  | (k', v) :: d' =>
      if String.eqb k k' then dict_remove k d' else (k', v) :: dict_remove k d'
  end.

(** [bool(v)] *)
Definition truthy (v : json) : bool :=
  match v with
  | JNull => false
  | JBool b => b
  | JInt n => negb (n =? 0)%Z
  | JStr s => Str.nonempty s
  | JList items => match items with [] => false | _ => true end
  | JDict fields => match fields with [] => false | _ => true end
  end.

(** [type(v).__name__] *)
Definition type_name (v : json) : string :=
  match v with
  | JNull => "NoneType"
  | JBool _ => "bool"
  | JInt _ => "int"
  | JStr _ => "str"
  | JList _ => "list"
  | JDict _ => "dict"
  end.

(** ['k' == v] *)
Definition eq_str (k : string) (v : json) : bool :=
  match v with JStr s => String.eqb k s | _ => false end.

(** ['k' in v] *)
Definition contains (k : string) (v : json) : outcome bool :=
  match v with
  | JDict fields => Ok (match dict_get k fields with Some _ => true | None => false end)
  | JList items => Ok (existsb (eq_str k) items)
  | JStr s => Ok (Str.is_substring k s)
  | _ => Raise (TypeError ("argument of type '" +:+ type_name v +:+ "' is not iterable"))
  end.

Definition quote (k : string) : string := "'" +:+ k +:+ "'".

(** [v['k']] *)
Definition getitem (v : json) (k : string) : outcome json :=
  match v with
  | JDict fields =>
      match dict_get k fields with
      | Some x => Ok x
      | None => Raise (KeyError (quote k))
      end
  | JList _ => Raise (TypeError "list indices must be integers or slices, not str")
  | JStr _ => Raise (TypeError "string indices must be integers, not 'str'")
  | _ => Raise (TypeError ("'" +:+ type_name v +:+ "' object is not subscriptable"))
  end.

(** [v[0]] *)
Definition getitem0 (v : json) : outcome json :=
  match v with
  | JList (x :: _) => Ok x
  | JList [] => Raise (IndexError "list index out of range")
  | JDict _ => Raise (KeyError "0")
  | JStr (String c _) => Ok (JStr (String c EmptyString))
  | JStr EmptyString => Raise (IndexError "string index out of range")
  | _ => Raise (TypeError ("'" +:+ type_name v +:+ "' object is not subscriptable"))
  end.

(** [len(v)] *)
Definition len (v : json) : outcome Z :=
  match v with
  | JList items => Ok (Z.of_nat (length items))
  | JDict fields => Ok (Z.of_nat (length fields))
  | JStr s => Ok (Z.of_nat (String.length s))
  | _ => Raise (TypeError ("object of type '" +:+ type_name v +:+ "' has no len()"))
  end.

Fixpoint chars (s : string) : list json :=
  match s with
  | EmptyString => []
  | String c s' => JStr (String c EmptyString) :: chars s'
  end.

(** The sequence a [for] loop draws from [v]: the elements of a list, the
    keys of a dict, the characters of a string. *)
Definition iter (v : json) : outcome (list json) :=
  match v with
  | JList items => Ok items
  | JDict fields => Ok (List.map (fun kv => JStr (fst kv)) fields)
  | JStr s => Ok (chars s)
  | _ => Raise (TypeError ("'" +:+ type_name v +:+ "' object is not iterable"))
  end.

(** [v + n] for an [int] [n]; [bool] is a subclass of [int]. *)
Definition add_int (v : json) (n : Z) : outcome Z :=
  match v with
  | JInt a => Ok (a + n)%Z
  | JBool b => Ok (Z.b2z b + n)%Z
  | JStr _ | JList _ =>
      Raise (TypeError ("can only concatenate " +:+ type_name v +:+ " (not "
               +:+ String Str.dquote ("int" +:+ String Str.dquote (") to " +:+ type_name v))))
  | _ =>
      Raise (TypeError ("unsupported operand type(s) for +: '" +:+ type_name v +:+ "' and 'int'"))
  end.

(** [a // b] on [int]s: floor division, an error on a zero divisor. *)
Definition floordiv (a b : Z) : outcome Z :=
  if (b =? 0)%Z then Raise (ZeroDivisionError "integer division or modulo by zero")
  else Ok (a / b)%Z.

(** *** [repr] and [str] *)

Definition hex_digit (n : nat) : ascii :=
  if (n <? 10)%nat then ascii_of_nat (48 + n) else ascii_of_nat (87 + n).

(** One character of a string inside [repr], for the quote [q] in use.
    Bytes from 128 up are taken to belong to printable characters. *)
Definition repr_char (q c : ascii) : string :=
  let n := nat_of_ascii c in
  if Ascii.eqb c "\" then "\\"
  else if Ascii.eqb c q then String "\" (String q EmptyString)
  else if (n =? 10)%nat then "\n"
  else if (n =? 13)%nat then "\r"
  else if (n =? 9)%nat then "\t"
  else if (n <? 32)%nat || (n =? 127)%nat then
    "\x" +:+ String (hex_digit (n / 16)) (String (hex_digit (n mod 16)) EmptyString)
  else String c EmptyString.

Fixpoint escape (q : ascii) (s : string) : string :=
  match s with
  | EmptyString => EmptyString
  | String c s' => repr_char q c +:+ escape q s'
  end.

Fixpoint has_char (c : ascii) (s : string) : bool :=
  match s with
  | EmptyString => false
  | String a s' => Ascii.eqb a c || has_char c s'
  end.

(** [repr(s)]: single quotes unless the string has one and no double
    quote. *)
Definition repr_str (s : string) : string :=
  let q := if has_char "'" s && negb (has_char Str.dquote s) then Str.dquote else "'"%char in
  String q (escape q s +:+ String q EmptyString).

Fixpoint repr (v : json) : string :=
  match v with
  | JNull => "None"
  | JBool b => if b then "True" else "False"
  | JInt n => Str.of_Z n
  | JStr s => repr_str s
  | JList items => "[" +:+ String.concat ", " (List.map repr items) +:+ "]"
  | JDict fields =>
      "{" +:+ String.concat ", "
                (List.map (fun kv => let '(k, x) := kv in repr_str k +:+ ": " +:+ repr x) fields)
          +:+ "}"
  end.

(** [str(v)], which is what an f-string field prints. *)
Definition str (v : json) : string :=
  match v with
  | JStr s => s
  | _ => repr v
  end.

End Py.

(** ** The network and the monad of the operations *)

(** What [requests.get(url, params=..., headers=...)] is called with;
    [req_params] is [None] when the call passes no [params]. *)
Record Request : Type := mkRequest {
  req_url : string;
  req_params : option (list (string * json));
  req_headers : gmap string string
}.

(** The two methods the source calls on a response: [raise_for_status()]
    (an [HTTPError], a [RequestException], on a 4xx or 5xx status) and
    [json()]. *)
Record Response : Type := mkResponse {
  raise_for_status : outcome unit;
  json_of : outcome json
}.

(** The remote side: what [requests.get] does with a request, either a
    response or an exception (connection refused, timeout, ...). *)
Definition Network : Type := Request -> outcome Response.

(** An operation maps the log of requests sent so far to its outcome and
    the new log. *)
Definition IO (A : Type) : Type := list Request -> outcome A * list Request.

#[global] Instance IO_ret : MRet IO := fun A a log => (Ok a, log).
#[global] Instance IO_bind : MBind IO := fun A B f m log =>
  match m log with
  | (Ok a, log') => f a log'
  | (Raise e, log') => (Raise e, log')
  end.

Definition lift {A : Type} (o : outcome A) : IO A := fun log => (o, log).

Definition requests_get (net : Network) (url : string)
    (params : option (list (string * json))) (headers : gmap string string) : IO Response :=
  fun log => let req := mkRequest url params headers in (net req, log ++ [req]).

(** [try: body except C1 as e: h1 ... except Cn as e: hn]: the first
    clause whose class the exception belongs to handles it; with no such
    clause the exception goes on to the caller. *)
Definition handler : Type := (exn -> bool) * (exn -> IO string).

Fixpoint dispatch (handlers : list handler) (e : exn) : IO string :=
  match handlers with
  | [] => lift (Raise e)
  | (cls, h) :: rest => if cls e then h e else dispatch rest e
  end.

Definition try_except (body : IO string) (handlers : list handler) : IO string :=
  fun log =>
    match body log with
    | (Ok s, log') => (Ok s, log')
    | (Raise e, log') => dispatch handlers e log'
    end.

(** What a call returned (or raised), and the requests it sent, starting
    from an empty log. *)
Definition returned {A : Type} (m : IO A) : outcome A := fst (m []).
Definition sent {A : Type} (m : IO A) : list Request := snd (m []).

(** ** Building blocks of the reports

    A report is built in the local variable [result] by successive
    [result += ...]; each block below takes the current [result] and gives
    the new one, or raises. *)

(** [if 'k' in item and item['k']:] *)
Definition present_and_truthy (k : string) (item : json) : outcome bool :=
  c ← Py.contains k item;
  if c : bool then v ← Py.getitem item k; mret (Py.truthy v) else mret false.

(** [if 'k' in item and item['k']: result += f"{before}{item['k']}{after}"] *)
Definition add_field (before after k : string) (item : json) (result : string)
    : outcome string :=
  c ← present_and_truthy k item;
  if c : bool then
    v ← Py.getitem item k;
    mret (result +:+ before +:+ Py.str v +:+ after)
  else mret result.

(** [if 'location' in item and item['location']:
       result += f"{before}{item['location']['name']}\n"] *)
Definition add_location (before : string) (item : json) (result : string)
    : outcome string :=
  c ← present_and_truthy "location" item;
  if c : bool then
    location ← Py.getitem item "location";
    name ← Py.getitem location "name";
    mret (result +:+ before +:+ Py.str name +:+ Str.nl)
  else mret result.

(** [if 'quantity' in item: result += f"{before}{item['quantity']}\n"] *)
Definition add_quantity (before : string) (item : json) (result : string)
    : outcome string :=
  c ← Py.contains "quantity" item;
  if c : bool then
    v ← Py.getitem item "quantity";
    mret (result +:+ before +:+ Py.str v +:+ Str.nl)
  else mret result.

(** [for idx, item in enumerate(items, idx): result = block idx item result] *)
Fixpoint for_each (block : Z -> json -> string -> outcome string)
    (items : list json) (idx : Z) (result : string) : outcome string :=
  match items with
  | [] => mret result
  | item :: rest =>
      result' ← block idx item result;
      for_each block rest (idx + 1)%Z result'
  end.

(** ['data' in data and len(data['data']) > 0] *)
Definition has_results (data : json) : outcome bool :=
  c ← Py.contains "data" data;
  if c : bool then
    d ← Py.getitem data "data";
    n ← Py.len d;
    mret (0 <? n)%Z
  else mret false.

(** The pagination footer (lines 111-116 and 307-312). *)
Definition add_pagination (data : json) (page page_size : Z) (result : string)
    : outcome string :=
  total ← Py.getitem data "total";
  sum ← Py.add_int total page_size;
  total_pages ← Py.floordiv (sum - 1)%Z page_size;
  let result :=
    result +:+ "Page " +:+ Str.of_Z page +:+ " of " +:+ Str.of_Z total_pages +:+ Str.nl in
  if (page <? total_pages)%Z then
    mret (result +:+ "Use 'page=" +:+ Str.of_Z (page + 1)%Z +:+ "' to see more results.")
  else mret result.

(** ** [search_items] (lines 56-124) *)

(** One turn of the loop of lines 88-109. *)
Definition search_item_block (idx : Z) (item : json) (result : string) : outcome string :=
  name ← Py.getitem item "name";
  let result := result +:+ Str.of_Z idx +:+ ". " +:+ Py.str name +:+ Str.nl in
  result ← add_field "   Description: " Str.nl "description" item result;
  result ← add_location "   Location: " item result;
  result ← add_field "   Asset ID: " Str.nl "assetId" item result;
  result ← add_quantity "   Quantity: " item result;
  result ← add_field "   Manufacturer: " Str.nl "manufacturer" item result;
  result ← add_field "   Model: " Str.nl "modelNumber" item result;
  mret (result +:+ Str.nl).

(** Lines 85-120: the report made from the parsed response. *)
Definition search_items_report (query : string) (page page_size : Z) (data : json)
    : outcome string :=
  nonempty ← has_results data;
  if nonempty : bool then
    total ← Py.getitem data "total";
    let result :=
      "Found " +:+ Py.str total +:+ " items matching '" +:+ query +:+ "':" +:+ Str.nl +:+ Str.nl in
    d ← Py.getitem data "data";
    items ← Py.iter d;
    result ← for_each search_item_block items 1%Z result;
    add_pagination data page page_size result
  else mret ("No items found matching '" +:+ query +:+ "'.").

Definition config_error : string :=
  "Error: Homebox API URL is required. Please set your Homebox API URL in the tool settings.".

Definition unexpected_error (e : exn) : IO string :=
  mret ("Unexpected error: " +:+ str_exn e).

Definition search_items (self : Valves) (net : Network)
    (query : string) (page page_size : Z) : IO string :=
  if negb (Str.nonempty (homebox_url self)) then mret config_error
  else
    let base_url := normalize_base_url (homebox_url self) in
    let endpoint := base_url +:+ "/v1/items" in
    let params := [("q", JStr query); ("page", JInt page); ("pageSize", JInt page_size)] in
    try_except
      (response ← requests_get net endpoint (Some params) (_get_headers self);
       _ ← lift (raise_for_status response);
       data ← lift (json_of response);
       lift (search_items_report query page page_size data))
      [(is_RequestException, fun e => mret ("Error searching items: " +:+ str_exn e));
       (is_Exception, unexpected_error)].

(** ** [get_item_details] (lines 126-216) *)

(** [if 'k' in item and item['k']: info.append(f"{before}{item['k']}")] *)
Definition append_field (before k : string) (item : json) (info : list string)
    : outcome (list string) :=
  c ← present_and_truthy k item;
  if c : bool then
    v ← Py.getitem item k;
    mret (info ++ [before +:+ Py.str v])
  else mret info.

(** Lines 175-183: the list [purchase_info]. *)
Definition purchase_info (item : json) : outcome (list string) :=
  info ← append_field "- Purchased From: " "purchaseFrom" item [];
  info ← append_field "- Purchase Price: " "purchasePrice" item info;
  append_field "- Purchase Date: " "purchaseTime" item info.

(** Lines 189-197: the list [warranty_info]. *)
Definition warranty_info (item : json) : outcome (list string) :=
  c ← present_and_truthy "lifetimeWarranty" item;
  let info := if c : bool then ["- Lifetime Warranty: Yes"] else [] in
  info ← append_field "- Warranty Details: " "warrantyDetails" item info;
  append_field "- Warranty Expires: " "warrantyExpires" item info.

(** [if info: result += heading + "\n".join(info) + "\n"] *)
Definition add_info_block (heading : string) (info : list string) (result : string)
    : string :=
  match info with
  | [] => result
  | _ => result +:+ (heading +:+ String.concat Str.nl info +:+ Str.nl)
  end.

(** One turn of the loop of lines 205-206. *)
Definition custom_field_line (idx : Z) (field : json) (result : string) : outcome string :=
  name ← Py.getitem field "name";
  value ← Py.getitem field "value";
  mret (result +:+ "- " +:+ Py.str name +:+ ": " +:+ Py.str value +:+ Str.nl).

(** Lines 203-206: the custom fields. *)
Definition add_custom_fields (item : json) (result : string) : outcome string :=
  c ← present_and_truthy "fields" item;
  if c : bool then
    let result := result +:+ Str.nl +:+ "Custom Fields:" +:+ Str.nl in
    fields ← Py.getitem item "fields";
    fields ← Py.iter fields;
    for_each custom_field_line fields 1%Z result
  else mret result.

(** Lines 148-186: title, description, basic information, location and
    purchase information. *)
Definition details_head (item : json) : outcome string :=
  name ← Py.getitem item "name";
  let result := "Item Details: " +:+ Py.str name +:+ Str.nl +:+ Str.nl in
  result ← add_field "Description: " (Str.nl +:+ Str.nl) "description" item result;
  let result := result +:+ "Basic Information:" +:+ Str.nl in
  result ← add_field "- Asset ID: " Str.nl "assetId" item result;
  result ← add_quantity "- Quantity: " item result;
  result ← add_field "- Manufacturer: " Str.nl "manufacturer" item result;
  result ← add_field "- Model Number: " Str.nl "modelNumber" item result;
  result ← add_field "- Serial Number: " Str.nl "serialNumber" item result;
  result ← add_location (Str.nl +:+ "Location: ") item result;
  info ← purchase_info item;
  mret (add_info_block (Str.nl +:+ "Purchase Information:" +:+ Str.nl) info result).

(** Lines 188-200: the warranty block. *)
Definition add_warranty (item : json) (result : string) : outcome string :=
  info ← warranty_info item;
  mret (add_info_block (Str.nl +:+ "Warranty Information:" +:+ Str.nl) info result).

(** Lines 202-212: custom fields and notes. *)
Definition details_tail (item : json) (result : string) : outcome string :=
  result ← add_custom_fields item result;
  add_field (Str.nl +:+ "Notes:" +:+ Str.nl) Str.nl "notes" item result.

(** Lines 148-212: the report made from the parsed response. *)
Definition item_details_report (item : json) : outcome string :=
  result ← details_head item;
  result ← add_warranty item result;
  details_tail item result.

Definition get_item_details (self : Valves) (net : Network) (item_id : string) : IO string :=
  if negb (Str.nonempty (homebox_url self)) then mret config_error
  else
    let base_url := normalize_base_url (homebox_url self) in
    let endpoint := base_url +:+ "/v1/items/" +:+ item_id in
    try_except
      (response ← requests_get net endpoint None (_get_headers self);
       _ ← lift (raise_for_status response);
       item ← lift (json_of response);
       lift (item_details_report item))
      [(is_RequestException, fun e => mret ("Error retrieving item details: " +:+ str_exn e));
       (is_Exception, unexpected_error)].

(** ** [list_locations] (lines 218-254) *)

(** One turn of the loop of lines 242-246. *)
Definition location_block (idx : Z) (location : json) (result : string) : outcome string :=
  name ← Py.getitem location "name";
  let result := result +:+ Str.of_Z idx +:+ ". " +:+ Py.str name +:+ Str.nl in
  result ← add_field "   Description: " Str.nl "description" location result;
  id ← Py.getitem location "id";
  mret (result +:+ "   ID: " +:+ Py.str id +:+ Str.nl +:+ Str.nl).

Definition locations_report (data : json) : outcome string :=
  nonempty ← has_results data;
  if nonempty : bool then
    d ← Py.getitem data "data";
    n ← Py.len d;
    let result := "Found " +:+ Str.of_Z n +:+ " locations:" +:+ Str.nl +:+ Str.nl in
    d ← Py.getitem data "data";
    locations ← Py.iter d;
    for_each location_block locations 1%Z result
  else mret "No locations found.".

Definition list_locations (self : Valves) (net : Network) : IO string :=
  if negb (Str.nonempty (homebox_url self)) then mret config_error
  else
    let base_url := normalize_base_url (homebox_url self) in
    let endpoint := base_url +:+ "/v1/locations" in
    try_except
      (response ← requests_get net endpoint None (_get_headers self);
       _ ← lift (raise_for_status response);
       data ← lift (json_of response);
       lift (locations_report data))
      [(is_RequestException, fun e => mret ("Error listing locations: " +:+ str_exn e));
       (is_Exception, unexpected_error)].

(** ** [search_items_by_location] (lines 256-320) *)

(** Lines 287-289: the name shown for the location. *)
Definition location_name_of (data : json) : outcome json :=
  let location_name := JStr "Unknown Location" in
  d ← Py.getitem data "data";
  n ← Py.len d;
  if (0 <? n)%Z then
    first ← Py.getitem0 d;
    c ← present_and_truthy "location" first;
    if c : bool then
      location ← Py.getitem first "location";
      Py.getitem location "name"
    else mret location_name
  else mret location_name.

(** One turn of the loop of lines 293-305. *)
Definition location_item_block (idx : Z) (item : json) (result : string) : outcome string :=
  name ← Py.getitem item "name";
  let result := result +:+ Str.of_Z idx +:+ ". " +:+ Py.str name +:+ Str.nl in
  result ← add_field "   Description: " Str.nl "description" item result;
  result ← add_field "   Asset ID: " Str.nl "assetId" item result;
  result ← add_quantity "   Quantity: " item result;
  mret (result +:+ Str.nl).

(** The heading of line 291. *)
Definition location_heading (total location_name : json) : string :=
  "Found " +:+ Py.str total +:+ " items in location '" +:+ Py.str location_name
    +:+ "':" +:+ Str.nl +:+ Str.nl.

Definition location_items_report (page page_size : Z) (data : json) : outcome string :=
  nonempty ← has_results data;
  if nonempty : bool then
    location_name ← location_name_of data;
    total ← Py.getitem data "total";
    let result := location_heading total location_name in
    d ← Py.getitem data "data";
    items ← Py.iter d;
    result ← for_each location_item_block items 1%Z result;
    add_pagination data page page_size result
  else mret "No items found in the specified location.".

Definition search_items_by_location (self : Valves) (net : Network)
    (location_id : string) (page page_size : Z) : IO string :=
  if negb (Str.nonempty (homebox_url self)) then mret config_error
  else
    let base_url := normalize_base_url (homebox_url self) in
    let endpoint := base_url +:+ "/v1/items" in
    let params :=
      [("locations", JList [JStr location_id]); ("page", JInt page); ("pageSize", JInt page_size)] in
    try_except
      (response ← requests_get net endpoint (Some params) (_get_headers self);
       _ ← lift (raise_for_status response);
       data ← lift (json_of response);
       lift (location_items_report page page_size data))
      [(is_RequestException, fun e => mret ("Error searching items by location: " +:+ str_exn e));
       (is_Exception, unexpected_error)].

(** ** Vocabulary of the statements *)

(** The headers without the proxy pair. *)
Definition json_headers : gmap string string :=
  <["Accept" := "application/json"]> (<["Content-Type" := "application/json"]> ∅).

(** The request each operation sends. *)
Definition search_request (self : Valves) (query : string) (page page_size : Z) : Request :=
  mkRequest (normalize_base_url (homebox_url self) +:+ "/v1/items")
    (Some [("q", JStr query); ("page", JInt page); ("pageSize", JInt page_size)])
    (_get_headers self).

Definition details_request (self : Valves) (item_id : string) : Request :=
  mkRequest (normalize_base_url (homebox_url self) +:+ "/v1/items/" +:+ item_id)
    None (_get_headers self).

Definition locations_request (self : Valves) : Request :=
  mkRequest (normalize_base_url (homebox_url self) +:+ "/v1/locations")
    None (_get_headers self).

Definition location_items_request (self : Valves) (location_id : string)
    (page page_size : Z) : Request :=
  mkRequest (normalize_base_url (homebox_url self) +:+ "/v1/items")
    (Some [("locations", JList [JStr location_id]); ("page", JInt page);
           ("pageSize", JInt page_size)])
    (_get_headers self).

(** What the HTTP layer gives for a request: the parsed body, or the
    exception raised by [requests.get], [raise_for_status()] or [json()]. *)
Definition http_json (net : Network) (req : Request) : outcome json :=
  response ← net req;
  _ ← raise_for_status response;
  json_of response.

(** The text an operation returns for an exception [e] raised in its [try]
    block, [prefix] being the operation's own wording. *)
Definition failure_text (prefix : string) (e : exn) : string :=
  match e with
  | RequestException msg => prefix +:+ msg
  | _ => "Unexpected error: " +:+ str_exn e
  end.

(** [acc] followed by the text [o] produced, if it produced one. *)
Definition extend (acc : string) (o : outcome string) : outcome string :=
  match o with
  | Ok s => Ok (acc +:+ s)
  | Raise e => Raise e
  end.

(** The value of a field when it is present and truthy. *)
Definition field_value (k : string) (fields : list (string * json)) : option json :=
  match Py.dict_get k fields with
  | Some v => if Py.truthy v then Some v else None
  | None => None
  end.

(** The shape of an item in the data model: an object with a [name], whose
    [location], when present and truthy, is an object with a [name]. *)
Definition has_key (k : string) (v : json) : bool :=
  match v with
  | JDict fields => match Py.dict_get k fields with Some _ => true | None => false end
  | _ => false
  end.

Definition location_ok (fields : list (string * json)) : bool :=
  match field_value "location" fields with
  | Some location => has_key "name" location
  | None => true
  end.

Definition item_ok (item : json) : bool :=
  match item with
  | JDict fields => has_key "name" item && location_ok fields
  | _ => false
  end.

(** A custom field: an object with a [name] and a [value]. *)
Definition custom_field_ok (field : json) : bool :=
  has_key "name" field && has_key "value" field.

(** The custom fields of an item, when present and truthy, are a list of
    custom fields. *)
Definition custom_fields_ok (fields : list (string * json)) : bool :=
  match field_value "fields" fields with
  | Some (JList l) => forallb custom_field_ok l
  | Some _ => false
  | None => true
  end.

(** The ceiling of [a / b], as minus the floor of [-a / b]. *)
Definition ceil_div (a b : Z) : Z := (- ((- a) / b))%Z.


(** The text an operation returns for the outcome [o] of its [try] block. *)
Definition run_report (prefix : string) (o : outcome string) : string :=
  match o with
  | Ok s => s
  | Raise e => failure_text prefix e
  end.

(** A block only ever adds text after what [result] already holds. *)
Definition appends (f : string -> outcome string) : Prop :=
  forall acc, f acc = extend acc (f EmptyString).

(** The text a field adds to a report made from an object: [before], the
    value and [after] when the field is present and truthy, nothing
    otherwise. *)
Definition field_text (before after k : string) (fields : list (string * json)) : string :=
  match field_value k fields with
  | Some v => before +:+ Py.str v +:+ after
  | None => EmptyString
  end.

(** The text the quantity adds: a line whenever the key is present. *)
Definition quantity_text (before : string) (fields : list (string * json)) : string :=
  match Py.dict_get "quantity" fields with
  | Some v => before +:+ Py.str v +:+ Str.nl
  | None => EmptyString
  end.

(** The entry a field adds to [purchase_info] or [warranty_info]. *)
Definition info_line (before k : string) (fields : list (string * json)) : list string :=
  match field_value k fields with
  | Some v => [before +:+ Py.str v]
  | None => []
  end.

Definition purchase_lines (fields : list (string * json)) : list string :=
  info_line "- Purchased From: " "purchaseFrom" fields
    ++ info_line "- Purchase Price: " "purchasePrice" fields
    ++ info_line "- Purchase Date: " "purchaseTime" fields.

Definition warranty_lines (fields : list (string * json)) : list string :=
  (match field_value "lifetimeWarranty" fields with
   | Some _ => ["- Lifetime Warranty: Yes"]
   | None => []
   end)
    ++ info_line "- Warranty Details: " "warrantyDetails" fields
    ++ info_line "- Warranty Expires: " "warrantyExpires" fields.

(** The warranty block of a report made from an object. *)
Definition warranty_block (fields : list (string * json)) : string :=
  add_info_block (Str.nl +:+ "Warranty Information:" +:+ Str.nl)
    (warranty_lines fields) EmptyString.

(** The footer of a listing: the page out of the number of pages, then the
    hint when the page is not the last. *)
Definition footer (page total_pages : Z) : string :=
  "Page " +:+ Str.of_Z page +:+ " of " +:+ Str.of_Z total_pages +:+ Str.nl +:+
  (if (page <? total_pages)%Z
   then "Use 'page=" +:+ Str.of_Z (page + 1)%Z +:+ "' to see more results."
   else EmptyString).

(** The purchase block of a report made from an object. *)
Definition purchase_block (fields : list (string * json)) : string :=
  add_info_block (Str.nl +:+ "Purchase Information:" +:+ Str.nl)
    (purchase_lines fields) EmptyString.


Definition location_item_fields : list string := ["description"; "assetId"].

Definition details_head_fields : list string :=
  ["description"; "assetId"; "manufacturer"; "modelNumber"; "serialNumber"; "location";
   "purchaseFrom"; "purchasePrice"; "purchaseTime"].

Definition warranty_fields : list string :=
  ["lifetimeWarranty"; "warrantyDetails"; "warrantyExpires"].

Definition details_tail_fields : list string := ["fields"; "notes"].

(** Two objects with the same [name], the same [quantity] and the same
    truthy values under the keys of [keys]. *)
Definition agree_on (keys : list string) (f1 f2 : list (string * json)) : Prop :=
  Py.dict_get "name" f1 = Py.dict_get "name" f2 /\
  Py.dict_get "quantity" f1 = Py.dict_get "quantity" f2 /\
  forall k, In k keys -> field_value k f1 = field_value k f2.


(** ** Vocabulary of the renderings *)

(** [str(item['name'])] for an object that has a name. *)
Definition name_text (fields : list (string * json)) : string :=
  match Py.dict_get "name" fields with
  | Some v => Py.str v
  | None => EmptyString
  end.

(** The line a truthy [location] with a name adds. *)
Definition location_line (before : string) (fields : list (string * json)) : string :=
  match field_value "location" fields with
  | Some (JDict location) =>
      match Py.dict_get "name" location with
      | Some name => before +:+ Py.str name +:+ Str.nl
      | None => EmptyString
      end
  | _ => EmptyString
  end.

(** The block of one item in the listing of [search_items]. *)
Definition search_item_text (idx : Z) (fields : list (string * json)) : string :=
  Str.of_Z idx +:+ ". " +:+ name_text fields +:+ Str.nl
    +:+ field_text "   Description: " Str.nl "description" fields
    +:+ location_line "   Location: " fields
    +:+ field_text "   Asset ID: " Str.nl "assetId" fields
    +:+ quantity_text "   Quantity: " fields
    +:+ field_text "   Manufacturer: " Str.nl "manufacturer" fields
    +:+ field_text "   Model: " Str.nl "modelNumber" fields
    +:+ Str.nl.

(** The block of one item in the listing of [search_items_by_location]. *)
Definition location_item_text (idx : Z) (fields : list (string * json)) : string :=
  Str.of_Z idx +:+ ". " +:+ name_text fields +:+ Str.nl
    +:+ field_text "   Description: " Str.nl "description" fields
    +:+ field_text "   Asset ID: " Str.nl "assetId" fields
    +:+ quantity_text "   Quantity: " fields
    +:+ Str.nl.

(** The entry of one location in the listing of [list_locations]. *)
Definition location_entry_text (idx : Z) (fields : list (string * json)) : string :=
  Str.of_Z idx +:+ ". " +:+ name_text fields +:+ Str.nl
    +:+ field_text "   Description: " Str.nl "description" fields
    +:+ "   ID: "
    +:+ match Py.dict_get "id" fields with Some v => Py.str v | None => EmptyString end
    +:+ Str.nl +:+ Str.nl.

(** A location as [list_locations] needs it: an object with a [name] and an
    [id]. *)
Definition location_entry_ok (location : json) : bool :=
  has_key "name" location && has_key "id" location.

(** The texts of the objects of [l], numbered from [idx] on, one after the
    other. *)
Fixpoint numbered (text : Z -> list (string * json) -> string) (idx : Z)
    (l : list (list (string * json))) : string :=
  match l with
  | [] => EmptyString
  | fields :: rest => text idx fields +:+ numbered text (idx + 1)%Z rest
  end.

(** The line of one custom field. *)
Definition custom_field_text (idx : Z) (fields : list (string * json)) : string :=
  "- " +:+ name_text fields +:+ ": "
    +:+ match Py.dict_get "value" fields with Some v => Py.str v | None => EmptyString end
    +:+ Str.nl.

(** The custom fields of an item, under their heading. *)
Definition custom_fields_text (custom : list (list (string * json))) : string :=
  match custom with
  | [] => EmptyString
  | _ => Str.nl +:+ "Custom Fields:" +:+ Str.nl +:+ numbered custom_field_text 1%Z custom
  end.

(** The whole report of [get_item_details] for an item with the custom
    fields [custom]. *)
Definition details_text (fields : list (string * json))
    (custom : list (list (string * json))) : string :=
  "Item Details: " +:+ name_text fields +:+ Str.nl +:+ Str.nl
    +:+ field_text "Description: " (Str.nl +:+ Str.nl) "description" fields
    +:+ "Basic Information:" +:+ Str.nl
    +:+ field_text "- Asset ID: " Str.nl "assetId" fields
    +:+ quantity_text "- Quantity: " fields
    +:+ field_text "- Manufacturer: " Str.nl "manufacturer" fields
    +:+ field_text "- Model Number: " Str.nl "modelNumber" fields
    +:+ field_text "- Serial Number: " Str.nl "serialNumber" fields
    +:+ location_line (Str.nl +:+ "Location: ") fields
    +:+ purchase_block fields
    +:+ warranty_block fields
    +:+ custom_fields_text custom
    +:+ field_text (Str.nl +:+ "Notes:" +:+ Str.nl) Str.nl "notes" fields.

(** The name [search_items_by_location] shows for the location, read off
    the first item of the page. *)
Definition location_name_text (first : list (string * json)) : string :=
  match field_value "location" first with
  | Some (JDict location) => name_text location
  | Some _ => EmptyString
  | None => "Unknown Location"
  end.

(** * Properties *)

#[local] Arguments String.append : simpl nomatch.

(** ** Facts about the string functions *)

Section StrFacts.

Lemma append_empty_r (s : string) : s +:+ EmptyString = s.
Proof. induction s as [|a s IH]; simpl; [reflexivity | now rewrite IH]. Qed.

Lemma append_assoc (s t u : string) : (s +:+ t) +:+ u = s +:+ (t +:+ u).
Proof. induction s as [|a s IH]; simpl; [reflexivity | now rewrite IH]. Qed.

Lemma append_length (s t : string) :
  String.length (s +:+ t) = (String.length s + String.length t)%nat.
Proof. induction s as [|a s IH]; simpl; [reflexivity | now rewrite IH]. Qed.

Lemma endswith_refl (s : string) : Str.endswith s s = true.
Proof. destruct s; cbn [Str.endswith]; now rewrite String.eqb_refl. Qed.

(** [endswith] decides "is a suffix of". *)
Lemma endswith_iff (s suf : string) :
  Str.endswith s suf = true <-> exists p, s = p +:+ suf.
Proof.
  split.
  - induction s as [|a s IH]; cbn [Str.endswith].
    + rewrite orb_false_r. intros H%String.eqb_eq. now exists EmptyString.
    + intros [H%String.eqb_eq | H]%orb_true_iff.
      * now exists EmptyString.
      * destruct (IH H) as [p ->]. now exists (String a p).
  - intros [p ->]. induction p as [|a p IH]; [apply endswith_refl|].
    change (String a p +:+ suf) with (String a (p +:+ suf)).
    cbn [Str.endswith]. rewrite IH. apply orb_true_r.
Qed.

(** A string ending in a character other than [c] does not end with [c]. *)
Lemma endswith_last_ne (c d : ascii) (p : string) :
  d <> c -> Str.endswith (p +:+ String d EmptyString) (String c EmptyString) = false.
Proof.
  intros Hne. induction p as [|a p IH]; simpl.
  - apply Ascii.eqb_neq in Hne. now rewrite Hne.
  - rewrite IH, orb_false_r.
    destruct (Ascii.eqb a c); [|reflexivity].
    now destruct p.
Qed.

Lemma rstrip_last_ne (c d : ascii) (p : string) :
  d <> c -> Str.rstrip c (p +:+ String d EmptyString) = p +:+ String d EmptyString.
Proof.
  intros Hne. induction p as [|a p IH]; simpl.
  - apply Ascii.eqb_neq in Hne. now rewrite Hne.
  - rewrite IH. now destruct p.
Qed.

(** What [rstrip] removes is a run of [c]. *)
Lemma rstrip_replicate (c : ascii) (s : string) :
  exists n, s = Str.rstrip c s +:+ Str.replicate n c.
Proof.
  induction s as [|a s [n IH]]; simpl.
  - now exists O.
  - destruct (Str.rstrip c s) as [|b r] eqn:E.
    + destruct (Ascii.eqb a c) eqn:Ea.
      * apply Ascii.eqb_eq in Ea as ->. exists (S n). simpl. now f_equal.
      * exists n. simpl. now f_equal.
    + exists n. simpl. now f_equal.
Qed.

(** What [rstrip] leaves does not end with [c]. *)
Lemma rstrip_clean (c : ascii) (s : string) :
  Str.endswith (Str.rstrip c s) (String c EmptyString) = false.
Proof.
  induction s as [|a s IH]; simpl; [reflexivity|].
  destruct (Str.rstrip c s) as [|b r] eqn:E.
  - destruct (Ascii.eqb a c) eqn:Ea; simpl; [reflexivity|].
    now rewrite Ea.
  - change (String.eqb (String a (String b r)) (String c EmptyString)
            || Str.endswith (String b r) (String c EmptyString) = false).
    rewrite IH, orb_false_r. simpl. now destruct (Ascii.eqb a c).
Qed.

Lemma rstrip_length (c : ascii) (s : string) :
  (String.length (Str.rstrip c s) <= String.length s)%nat.
Proof.
  destruct (rstrip_replicate c s) as [n E].
  rewrite E at 2. rewrite append_length. lia.
Qed.

(** A string that does not end with [c] is left alone. *)
Lemma rstrip_id (c : ascii) (s : string) :
  Str.endswith s (String c EmptyString) = false -> Str.rstrip c s = s.
Proof.
  induction s as [|a s IH]; simpl; [reflexivity|].
  intros [H1 H2]%orb_false_iff.
  destruct s as [|b s].
  - simpl. simpl in H1. destruct (Ascii.eqb a c); [discriminate | reflexivity].
  - rewrite (IH H2). reflexivity.
Qed.

Lemma init_snoc (s : string) (c : ascii) : Str.init (s +:+ String c EmptyString) = s.
Proof.
  induction s as [|a s IH]; simpl; [reflexivity|].
  rewrite IH. now destruct s.
Qed.

End StrFacts.

(** ** URL normalisation *)

Lemma normalize_base_url_unfold (u : string) :
  normalize_base_url u =
    if Str.endswith (Str.rstrip "/" u) "/api" then Str.rstrip "/" u
    else Str.rstrip "/" u +:+ "/api".
Proof. unfold normalize_base_url. now destruct (Str.endswith _ _). Qed.

Lemma normalize_base_url_endswith_api (u : string) :
  Str.endswith (normalize_base_url u) "/api" = true.
Proof.
  rewrite normalize_base_url_unfold.
  destruct (Str.endswith (Str.rstrip "/" u) "/api") eqn:E; [exact E|].
  apply endswith_iff. now exists (Str.rstrip "/" u).
Qed.

Lemma endswith_api_rstrip (s : string) :
  Str.endswith s "/api" = true -> Str.rstrip "/" s = s.
Proof.
  intros [p ->]%endswith_iff.
  change (p +:+ "/api") with (p +:+ ("/ap" +:+ "i")).
  rewrite <- append_assoc. now apply rstrip_last_ne.
Qed.

Lemma rstrip_snoc (c : ascii) (p : string) :
  Str.rstrip c (p +:+ String c EmptyString) = Str.rstrip c p.
Proof.
  induction p as [|a p IH]; simpl.
  - now rewrite Ascii.eqb_refl.
  - now rewrite IH.
Qed.

Lemma endswith_snoc (c : ascii) (s : string) :
  Str.endswith s (String c EmptyString) = true ->
  exists p, s = p +:+ String c EmptyString.
Proof. intros H. now apply endswith_iff. Qed.

(** The source rule and the rule of the specification give the same URL
    when the configured URL does not end with two slashes. *)
Lemma normalize_agrees_with_spec (u : string) :
  Str.endswith u "//" = false -> normalize_base_url u = normalize_spec u.
Proof.
  intros H2. rewrite normalize_base_url_unfold. unfold normalize_spec, strip_one_slash.
  destruct (Str.endswith u "/") eqn:H1.
  - destruct (endswith_snoc _ _ H1) as [p ->].
    rewrite rstrip_snoc, init_snoc.
    assert (Hp : Str.endswith p "/" = false).
    { destruct (Str.endswith p "/") eqn:Hp; [|reflexivity].
      destruct (endswith_snoc _ _ Hp) as [q ->].
      rewrite <- H2. symmetry. apply endswith_iff. exists q.
      now rewrite append_assoc. }
    now rewrite (rstrip_id _ _ Hp).
  - now rewrite (rstrip_id _ _ H1).
Qed.

(** C3, as the source has it: normalisation removes every trailing slash,
    not one: the configured URL is a slash-free-ended stem [t] followed by
    a run of slashes, and the result is [t], with [/api] appended unless
    [t] already ends with it.  On a URL that does not end with two slashes
    this is the rule of the specification. *)
Theorem normalize_base_url_strips_all (u : string) :
  exists (t : string) (n : nat),
    u = t +:+ Str.replicate n "/" /\
    Str.endswith t "/" = false /\
    normalize_base_url u = (if Str.endswith t "/api" then t else t +:+ "/api") /\
    (Str.endswith u "//" = false -> normalize_base_url u = normalize_spec u).
Proof.
  destruct (rstrip_replicate "/" u) as [n E].
  exists (Str.rstrip "/" u), n. split; [exact E|]. split; [apply rstrip_clean|].
  split; [apply normalize_base_url_unfold | apply normalize_agrees_with_spec].
Qed.

(** C3, the counterexample: on a URL with two trailing slashes the source
    strips both, the rule of the specification strips one. *)
Lemma normalize_base_url_two_slashes :
  normalize_base_url "https://h.example.com//" = "https://h.example.com/api" /\
  normalize_spec "https://h.example.com//" = "https://h.example.com//api" /\
  normalize_base_url "https://h.example.com//" <> normalize_spec "https://h.example.com//".
Proof. split; [reflexivity | split; [reflexivity | discriminate]]. Qed.

(** C4: URL normalisation is idempotent, and both [https://h.example.com/]
    and [https://h.example.com/api] normalise to [https://h.example.com/api]. *)
Theorem normalize_base_url_idempotent (u : string) :
  normalize_base_url (normalize_base_url u) = normalize_base_url u /\
  normalize_base_url "https://h.example.com/" = "https://h.example.com/api" /\
  normalize_base_url "https://h.example.com/api" = "https://h.example.com/api".
Proof.
  split; [|split; reflexivity].
  pose proof (normalize_base_url_endswith_api u) as H.
  rewrite (normalize_base_url_unfold (normalize_base_url u)).
  rewrite (endswith_api_rstrip _ H). now rewrite H.
Qed.

(** ** Headers *)

Lemma nonempty_true (s : string) : Str.nonempty s = true <-> s <> EmptyString.
Proof. destruct s; simpl; split; congruence. Qed.

Lemma nonempty_false (s : string) : Str.nonempty s = false <-> s = EmptyString.
Proof. destruct s; simpl; split; congruence. Qed.

Lemma get_headers_paired (self : Valves) :
  cf_client_id self <> EmptyString -> cf_client_secret self <> EmptyString ->
  _get_headers self =
    <["CF-Access-Client-Secret" := cf_client_secret self]>
      (<["CF-Access-Client-Id" := cf_client_id self]> json_headers).
Proof.
  intros Hi%nonempty_true Hs%nonempty_true. unfold _get_headers.
  now rewrite Hi, Hs.
Qed.

Lemma get_headers_plain (self : Valves) :
  cf_client_id self = EmptyString \/ cf_client_secret self = EmptyString ->
  _get_headers self = json_headers.
Proof.
  unfold _get_headers.
  intros [H%nonempty_false | H%nonempty_false]; rewrite H;
    [reflexivity | now rewrite andb_false_r].
Qed.

(** C5: [Content-Type] and [Accept] are always present; the two proxy
    headers carry the configured values exactly when both are non-empty,
    and with either one empty neither header is present. *)
Theorem get_headers_proxy_pair (self : Valves) :
  _get_headers self !! "Content-Type" = Some "application/json" /\
  _get_headers self !! "Accept" = Some "application/json" /\
  ((_get_headers self !! "CF-Access-Client-Id" = Some (cf_client_id self) /\
    _get_headers self !! "CF-Access-Client-Secret" = Some (cf_client_secret self))
   <-> (cf_client_id self <> EmptyString /\ cf_client_secret self <> EmptyString)) /\
  ((cf_client_id self = EmptyString \/ cf_client_secret self = EmptyString) ->
   _get_headers self !! "CF-Access-Client-Id" = None /\
   _get_headers self !! "CF-Access-Client-Secret" = None).
Proof.
  destruct (decide (cf_client_id self <> EmptyString /\ cf_client_secret self <> EmptyString))
    as [[Hi Hs]|Hn].
  - rewrite (get_headers_paired self Hi Hs).
    assert (H1 : (<["CF-Access-Client-Secret" := cf_client_secret self]>
                    (<["CF-Access-Client-Id" := cf_client_id self]> json_headers)
                  : gmap string string) !! "CF-Access-Client-Id" = Some (cf_client_id self)).
    { rewrite lookup_insert_ne by discriminate. apply lookup_insert_eq. }
    split; [now rewrite !lookup_insert_ne by discriminate|].
    split; [now rewrite !lookup_insert_ne by discriminate|].
    split; [split; [tauto | intros _; split; [exact H1 | apply lookup_insert_eq]]|].
    intros [H|H]; contradiction.
  - assert (He : cf_client_id self = EmptyString \/ cf_client_secret self = EmptyString).
    { destruct (decide (cf_client_id self = EmptyString)); [now left|].
      destruct (decide (cf_client_secret self = EmptyString)); [now right|].
      exfalso. apply Hn. now split. }
    rewrite (get_headers_plain self He).
    split; [reflexivity|]. split; [reflexivity|].
    split; [split; [intros [H _]; discriminate H | intros H; contradiction]|].
    intros _. split; reflexivity.
Qed.

(** ** The shell common to the four operations *)

Ltac unfold_monad :=
  unfold mbind, mret, outcome_bind, outcome_ret, IO_bind, IO_ret, lift in *.

(** Once the base URL is set, an operation sends one request and returns
    the report made from the parsed body, or the text of the exception. *)
Lemma shell_run (net : Network) (url : string) (params : option (list (string * json)))
    (headers : gmap string string) (prefix : string) (report : json -> outcome string)
    (log : list Request) :
  try_except
    (response ← requests_get net url params headers;
     _ ← lift (raise_for_status response);
     data ← lift (json_of response);
     lift (report data))
    [(is_RequestException, fun e => mret (prefix +:+ str_exn e));
     (is_Exception, unexpected_error)] log
  = (Ok (run_report prefix (http_json net (mkRequest url params headers) ≫= report)),
     log ++ [mkRequest url params headers]).
Proof.
  unfold try_except, requests_get, http_json, unexpected_error. unfold_monad.
  destruct (net _) as [resp|e]; simpl.
  - destruct (raise_for_status resp) as [[]|e]; simpl.
    + destruct (json_of resp) as [data|e]; simpl.
      * destruct (report data) as [s|e]; simpl; [reflexivity | now destruct e].
      * now destruct e.
    + now destruct e.
  - now destruct e.
Qed.

Lemma nonempty_negb (s : string) : s <> EmptyString -> negb (Str.nonempty s) = false.
Proof. intros H%nonempty_true. now rewrite H. Qed.

Lemma search_items_run (self : Valves) (net : Network) (query : string) (page page_size : Z) :
  homebox_url self <> EmptyString ->
  search_items self net query page page_size [] =
    (Ok (run_report "Error searching items: "
           (http_json net (search_request self query page page_size)
              ≫= search_items_report query page page_size)),
     [search_request self query page page_size]).
Proof.
  intros H. unfold search_items. rewrite (nonempty_negb _ H). apply shell_run.
Qed.

Lemma get_item_details_run (self : Valves) (net : Network) (item_id : string) :
  homebox_url self <> EmptyString ->
  get_item_details self net item_id [] =
    (Ok (run_report "Error retrieving item details: "
           (http_json net (details_request self item_id) ≫= item_details_report)),
     [details_request self item_id]).
Proof.
  intros H. unfold get_item_details. rewrite (nonempty_negb _ H). apply shell_run.
Qed.

Lemma list_locations_run (self : Valves) (net : Network) :
  homebox_url self <> EmptyString ->
  list_locations self net [] =
    (Ok (run_report "Error listing locations: "
           (http_json net (locations_request self) ≫= locations_report)),
     [locations_request self]).
Proof.
  intros H. unfold list_locations. rewrite (nonempty_negb _ H). apply shell_run.
Qed.

Lemma search_items_by_location_run (self : Valves) (net : Network) (location_id : string)
    (page page_size : Z) :
  homebox_url self <> EmptyString ->
  search_items_by_location self net location_id page page_size [] =
    (Ok (run_report "Error searching items by location: "
           (http_json net (location_items_request self location_id page page_size)
              ≫= location_items_report page page_size)),
     [location_items_request self location_id page page_size]).
Proof.
  intros H. unfold search_items_by_location. rewrite (nonempty_negb _ H). apply shell_run.
Qed.

Lemma empty_url_run (self : Valves) (net : Network) (query item_id location_id : string)
    (page page_size : Z) (log : list Request) :
  homebox_url self = EmptyString ->
  search_items self net query page page_size log = (Ok config_error, log) /\
  get_item_details self net item_id log = (Ok config_error, log) /\
  list_locations self net log = (Ok config_error, log) /\
  search_items_by_location self net location_id page page_size log = (Ok config_error, log).
Proof.
  intros H.
  unfold search_items, get_item_details, list_locations, search_items_by_location.
  rewrite H. repeat split.
Qed.

(** ** Error handling *)

(** C1: whatever the configuration, the arguments and the network do, each
    of the four operations returns a string and raises nothing; and when
    the HTTP layer fails with an exception (a transport failure, a 4xx or
    5xx status, a body that is not JSON), the string returned ends with
    the text of that exception, after the operation's own wording for a
    [RequestException] and after [Unexpected error: ] for any other. *)
Theorem operations_never_raise (self : Valves) (net : Network)
    (query item_id location_id : string) (page page_size : Z) :
  (exists s, returned (search_items self net query page page_size) = Ok s) /\
  (exists s, returned (get_item_details self net item_id) = Ok s) /\
  (exists s, returned (list_locations self net) = Ok s) /\
  (exists s, returned (search_items_by_location self net location_id page page_size) = Ok s) /\
  (forall e, homebox_url self <> EmptyString ->
     http_json net (search_request self query page page_size) = Raise e ->
     returned (search_items self net query page page_size)
       = Ok (failure_text "Error searching items: " e)) /\
  (forall e, homebox_url self <> EmptyString ->
     http_json net (details_request self item_id) = Raise e ->
     returned (get_item_details self net item_id)
       = Ok (failure_text "Error retrieving item details: " e)) /\
  (forall e, homebox_url self <> EmptyString ->
     http_json net (locations_request self) = Raise e ->
     returned (list_locations self net)
       = Ok (failure_text "Error listing locations: " e)) /\
  (forall e, homebox_url self <> EmptyString ->
     http_json net (location_items_request self location_id page page_size) = Raise e ->
     returned (search_items_by_location self net location_id page page_size)
       = Ok (failure_text "Error searching items by location: " e)).
Proof.
  unfold returned.
  destruct (decide (homebox_url self = EmptyString)) as [He|Hn].
  - destruct (empty_url_run self net query item_id location_id page page_size [] He)
      as (-> & -> & -> & ->).
    repeat split; try (now exists config_error); intros e Hc; contradiction.
  - rewrite (search_items_run _ _ _ _ _ Hn), (get_item_details_run _ _ _ Hn),
      (list_locations_run _ _ Hn), (search_items_by_location_run _ _ _ _ _ Hn).
    cbn [fst].
    repeat split; try (eexists; reflexivity); intros e _ ->; reflexivity.
Qed.

(** C2: with an empty base URL each of the four operations returns the
    fixed configuration error and sends no request, whatever its other
    arguments and the proxy settings are. *)
Theorem empty_url_config_error (id secret : string) (net : Network)
    (query item_id location_id : string) (page page_size : Z) :
  let self := mkValves EmptyString id secret in
  (returned (search_items self net query page page_size) = Ok config_error /\
   sent (search_items self net query page page_size) = []) /\
  (returned (get_item_details self net item_id) = Ok config_error /\
   sent (get_item_details self net item_id) = []) /\
  (returned (list_locations self net) = Ok config_error /\
   sent (list_locations self net) = []) /\
  (returned (search_items_by_location self net location_id page page_size) = Ok config_error /\
   sent (search_items_by_location self net location_id page page_size) = []).
Proof. repeat split. Qed.

(** With a base URL set, each operation sends exactly one request. *)
Lemma one_request_per_call (self : Valves) (net : Network)
    (query item_id location_id : string) (page page_size : Z) :
  homebox_url self <> EmptyString ->
  sent (search_items self net query page page_size)
    = [search_request self query page page_size] /\
  sent (get_item_details self net item_id) = [details_request self item_id] /\
  sent (list_locations self net) = [locations_request self] /\
  sent (search_items_by_location self net location_id page page_size)
    = [location_items_request self location_id page page_size].
Proof.
  intros Hn. unfold sent.
  rewrite (search_items_run _ _ _ _ _ Hn), (get_item_details_run _ _ _ Hn),
    (list_locations_run _ _ Hn), (search_items_by_location_run _ _ _ _ _ Hn).
  repeat split.
Qed.

(** C7: when the response holds an empty [data] list, [search_items]
    returns exactly [No items found matching 'q'.] for the query [q]. *)
Theorem search_items_no_results (self : Valves) (net : Network) (query : string)
    (page page_size : Z) (fields : list (string * json)) :
  homebox_url self <> EmptyString ->
  http_json net (search_request self query page page_size) = Ok (JDict fields) ->
  Py.dict_get "data" fields = Some (JList []) ->
  returned (search_items self net query page page_size)
    = Ok ("No items found matching '" +:+ query +:+ "'.").
Proof.
  intros Hn Hj Hd. unfold returned. rewrite (search_items_run _ _ _ _ _ Hn), Hj.
  cbn [fst]. unfold search_items_report, has_results. unfold_monad.
  cbn [Py.contains Py.getitem]. now rewrite Hd.
Qed.

(** The example of the specification: [search_items("xyz")] against a
    response with [total = 0] and no data. *)
Lemma search_items_no_results_xyz :
  returned (search_items (mkValves "https://h.example.com" "" "")
              (fun _ => Ok (mkResponse (Ok tt) (Ok (JDict [("total", JInt 0); ("data", JList [])]))))
              "xyz" 1 20)
    = Ok "No items found matching 'xyz'.".
Proof.
  refine (search_items_no_results (mkValves "https://h.example.com" "" "")
            (fun _ => Ok (mkResponse (Ok tt) (Ok (JDict [("total", JInt 0); ("data", JList [])]))))
            "xyz" 1 20 [("total", JInt 0); ("data", JList [])] _ _ _);
    [discriminate | reflexivity | reflexivity].
Defined.

(** ** Blocks append *)

Section Appends.

Lemma extend_empty (o : outcome string) : extend EmptyString o = o.
Proof. now destruct o. Qed.

Lemma extend_extend (a b : string) (o : outcome string) :
  extend a (extend b o) = extend (a +:+ b) o.
Proof. destruct o; simpl; [now rewrite append_assoc | reflexivity]. Qed.

Lemma appends_ret (s : string) : appends (fun acc => mret (acc +:+ s)).
Proof. intros acc. reflexivity. Qed.

Lemma appends_id : appends (fun acc => mret acc).
Proof. intros acc. unfold_monad. simpl. now rewrite append_empty_r. Qed.

Lemma appends_bind (f g : string -> outcome string) :
  appends f -> appends g -> appends (fun acc => f acc ≫= g).
Proof.
  intros Hf Hg acc. rewrite Hf. unfold_monad.
  destruct (f EmptyString) as [s|e]; simpl; [|reflexivity].
  rewrite (Hg (acc +:+ s)), (Hg s). apply eq_sym, extend_extend.
Qed.

Lemma appends_after (s : string) (f : string -> outcome string) :
  appends f -> appends (fun acc => f (acc +:+ s)).
Proof.
  intros Hf acc. rewrite (Hf (acc +:+ s)), (Hf (EmptyString +:+ s)).
  simpl. apply eq_sym, extend_extend.
Qed.

Lemma appends_guard {A : Type} (o : outcome A) (F : A -> string -> outcome string) :
  (forall a, appends (F a)) -> appends (fun acc => o ≫= fun a => F a acc).
Proof.
  intros HF acc. unfold_monad. destruct o as [a|e]; [apply HF | reflexivity].
Qed.

Lemma appends_if (b : bool) (f g : string -> outcome string) :
  appends f -> appends g -> appends (fun acc => if b then f acc else g acc).
Proof. intros Hf Hg acc. destruct b; [apply Hf | apply Hg]. Qed.

Lemma add_field_appends (before after k : string) (item : json) :
  appends (add_field before after k item).
Proof.
  unfold add_field. apply appends_guard. intros c. apply appends_if.
  - apply appends_guard. intros v. apply appends_ret.
  - apply appends_id.
Qed.

Lemma add_location_appends (before : string) (item : json) :
  appends (add_location before item).
Proof.
  unfold add_location. apply appends_guard. intros c. apply appends_if.
  - apply appends_guard. intros location. apply appends_guard. intros name.
    apply appends_ret.
  - apply appends_id.
Qed.

Lemma add_quantity_appends (before : string) (item : json) :
  appends (add_quantity before item).
Proof.
  unfold add_quantity. apply appends_guard. intros c. apply appends_if.
  - apply appends_guard. intros v. apply appends_ret.
  - apply appends_id.
Qed.

Lemma for_each_appends (block : Z -> json -> string -> outcome string) :
  (forall idx item, appends (block idx item)) ->
  forall items idx, appends (for_each block items idx).
Proof.
  intros Hb items. induction items as [|item rest IH]; intros idx; cbn [for_each].
  - apply appends_id.
  - apply (appends_bind (block idx item) (for_each block rest (idx + 1)%Z)); auto.
Qed.

Lemma search_item_block_appends (idx : Z) (item : json) :
  appends (search_item_block idx item).
Proof.
  unfold search_item_block. apply appends_guard. intros name. cbv zeta.
  apply appends_bind; [apply appends_after, add_field_appends|].
  apply appends_bind; [apply add_location_appends|].
  apply appends_bind; [apply add_field_appends|].
  apply appends_bind; [apply add_quantity_appends|].
  apply appends_bind; [apply add_field_appends|].
  apply appends_bind; [apply add_field_appends | apply appends_ret].
Qed.

Lemma location_item_block_appends (idx : Z) (item : json) :
  appends (location_item_block idx item).
Proof.
  unfold location_item_block. apply appends_guard. intros name. cbv zeta.
  apply appends_bind; [apply appends_after, add_field_appends|].
  apply appends_bind; [apply add_field_appends|].
  apply appends_bind; [apply add_quantity_appends | apply appends_ret].
Qed.

Lemma location_block_appends (idx : Z) (location : json) :
  appends (location_block idx location).
Proof.
  unfold location_block. apply appends_guard. intros name. cbv zeta.
  apply appends_bind; [apply appends_after, add_field_appends|].
  apply appends_guard. intros id. apply appends_ret.
Qed.

Lemma custom_field_line_appends (idx : Z) (field : json) :
  appends (custom_field_line idx field).
Proof.
  unfold custom_field_line. apply appends_guard. intros name.
  apply appends_guard. intros value. apply appends_ret.
Qed.

Lemma add_custom_fields_appends (item : json) : appends (add_custom_fields item).
Proof.
  unfold add_custom_fields. apply appends_guard. intros c. apply appends_if.
  - cbv zeta. apply appends_guard. intros f. apply appends_guard. intros fs.
    apply (appends_after (Str.nl +:+ "Custom Fields:" +:+ Str.nl)
             (for_each custom_field_line fs 1%Z)).
    apply for_each_appends, custom_field_line_appends.
  - apply appends_id.
Qed.

Lemma details_tail_appends (item : json) : appends (details_tail item).
Proof.
  unfold details_tail.
  apply appends_bind; [apply add_custom_fields_appends | apply add_field_appends].
Qed.

Lemma add_info_block_appends (heading : string) (info : list string) :
  appends (fun acc => mret (add_info_block heading info acc)).
Proof.
  destruct info; [apply appends_id | apply appends_ret].
Qed.

Lemma add_warranty_appends (item : json) : appends (add_warranty item).
Proof.
  unfold add_warranty. apply appends_guard. intros info. apply add_info_block_appends.
Qed.

Lemma add_pagination_appends (data : json) (page page_size : Z) :
  appends (add_pagination data page page_size).
Proof.
  unfold add_pagination. apply appends_guard. intros total.
  apply appends_guard. intros sum. apply appends_guard. intros total_pages.
  cbv zeta. apply appends_if.
  - apply (appends_after _ (fun acc => mret (acc +:+ _))), appends_ret.
  - apply appends_ret.
Qed.

End Appends.

(** ** Reports made from objects *)

Section Dicts.


Lemma dict_get_remove_ne (k k' : string) (fields : list (string * json)) :
  k <> k' -> Py.dict_get k' (Py.dict_remove k fields) = Py.dict_get k' fields.
Proof.
  intros Hne. induction fields as [|[k0 v] rest IH]; simpl; [reflexivity|].
  destruct (String.eqb k k0) eqn:E.
  - apply String.eqb_eq in E as <-.
    apply not_eq_sym, String.eqb_neq in Hne. now rewrite Hne.
  - simpl. now rewrite IH.
Qed.


Lemma field_value_remove_ne (k k' : string) (fields : list (string * json)) :
  k <> k' -> field_value k' (Py.dict_remove k fields) = field_value k' fields.
Proof. intros H. unfold field_value. now rewrite dict_get_remove_ne. Qed.

Lemma present_and_truthy_dict (k : string) (fields : list (string * json)) :
  present_and_truthy k (JDict fields)
    = Ok (match field_value k fields with Some _ => true | None => false end).
Proof.
  unfold present_and_truthy, field_value. unfold_monad. cbn [Py.contains Py.getitem].
  destruct (Py.dict_get k fields) as [v|]; [|reflexivity].
  now destruct (Py.truthy v).
Qed.

Lemma getitem_field_value (k : string) (fields : list (string * json)) (v : json) :
  field_value k fields = Some v -> Py.getitem (JDict fields) k = Ok v.
Proof.
  unfold field_value. cbn [Py.getitem].
  destruct (Py.dict_get k fields) as [x|]; [|discriminate].
  destruct (Py.truthy x); [congruence | discriminate].
Qed.

(** On an object, an optional field adds its text and never raises. *)
Lemma add_field_dict (before after k : string) (fields : list (string * json)) (acc : string) :
  add_field before after k (JDict fields) acc
    = Ok (acc +:+ field_text before after k fields).
Proof.
  unfold add_field, field_text. rewrite present_and_truthy_dict. unfold_monad.
  destruct (field_value k fields) as [v|] eqn:E.
  - now rewrite (getitem_field_value _ _ _ E).
  - now rewrite append_empty_r.
Qed.

Lemma add_quantity_dict (before : string) (fields : list (string * json)) (acc : string) :
  add_quantity before (JDict fields) acc = Ok (acc +:+ quantity_text before fields).
Proof.
  unfold add_quantity, quantity_text. unfold_monad. cbn [Py.contains Py.getitem].
  destruct (Py.dict_get "quantity" fields) as [v|]; [reflexivity|].
  now rewrite append_empty_r.
Qed.

Lemma append_field_dict (before k : string) (fields : list (string * json)) (info : list string) :
  append_field before k (JDict fields) info = Ok (info ++ info_line before k fields).
Proof.
  unfold append_field, info_line. rewrite present_and_truthy_dict. unfold_monad.
  destruct (field_value k fields) as [v|] eqn:E.
  - now rewrite (getitem_field_value _ _ _ E).
  - now rewrite app_nil_r.
Qed.

Lemma purchase_info_dict (fields : list (string * json)) :
  purchase_info (JDict fields) = Ok (purchase_lines fields).
Proof.
  unfold purchase_info, purchase_lines. rewrite append_field_dict. unfold_monad.
  rewrite !append_field_dict. now rewrite <- app_assoc.
Qed.

Lemma warranty_info_dict (fields : list (string * json)) :
  warranty_info (JDict fields) = Ok (warranty_lines fields).
Proof.
  unfold warranty_info, warranty_lines. rewrite present_and_truthy_dict. unfold_monad.
  rewrite !append_field_dict.
  destruct (field_value "lifetimeWarranty" fields); now rewrite <- app_assoc.
Qed.

Lemma add_warranty_dict (fields : list (string * json)) (acc : string) :
  add_warranty (JDict fields) acc = Ok (acc +:+ warranty_block fields).
Proof.
  rewrite (add_warranty_appends (JDict fields) acc).
  unfold add_warranty, warranty_block. now rewrite warranty_info_dict.
Qed.

(** What [add_location] does on an object depends on its [location] only. *)
Lemma add_location_congr (before : string) (f1 f2 : list (string * json)) (acc : string) :
  Py.dict_get "location" f1 = Py.dict_get "location" f2 ->
  add_location before (JDict f1) acc = add_location before (JDict f2) acc.
Proof.
  intros H. unfold add_location, present_and_truthy. unfold_monad.
  cbn [Py.contains Py.getitem]. now rewrite H.
Qed.

Lemma add_location_skip (before : string) (fields : list (string * json)) (acc : string) :
  field_value "location" fields = None ->
  add_location before (JDict fields) acc = Ok acc.
Proof.
  intros H. unfold add_location. rewrite present_and_truthy_dict, H. reflexivity.
Qed.

Lemma add_location_ok (before : string) (fields : list (string * json)) (acc : string) :
  location_ok fields = true -> exists s, add_location before (JDict fields) acc = Ok s.
Proof.
  unfold location_ok, add_location. rewrite present_and_truthy_dict.
  destruct (field_value "location" fields) as [loc|] eqn:E; [|now eexists].
  unfold_monad. rewrite (getitem_field_value _ _ _ E).
  destruct loc as [| | | | |l]; try discriminate. cbn [has_key Py.getitem].
  destruct (Py.dict_get "name" l); [now eexists | discriminate].
Qed.

End Dicts.

(** ** Listings *)

Section Listings.

(** The block of an item that is an object, in one piece. *)
Lemma search_item_block_dict (idx : Z) (fields : list (string * json)) (acc : string) :
  search_item_block idx (JDict fields) acc =
    (name ← Py.getitem (JDict fields) "name";
     location ← add_location "   Location: " (JDict fields) EmptyString;
     Ok (acc +:+ Str.of_Z idx +:+ ". " +:+ Py.str name +:+ Str.nl
           +:+ field_text "   Description: " Str.nl "description" fields
           +:+ location
           +:+ field_text "   Asset ID: " Str.nl "assetId" fields
           +:+ quantity_text "   Quantity: " fields
           +:+ field_text "   Manufacturer: " Str.nl "manufacturer" fields
           +:+ field_text "   Model: " Str.nl "modelNumber" fields
           +:+ Str.nl)).
Proof.
  unfold search_item_block. unfold_monad.
  destruct (Py.getitem (JDict fields) "name") as [name|e]; [|reflexivity].
  rewrite add_field_dict. rewrite add_location_appends.
  destruct (add_location "   Location: " (JDict fields) EmptyString) as [loc|e];
    [|reflexivity].
  cbn [extend]. rewrite !add_field_dict, add_quantity_dict, !add_field_dict.
  now rewrite !append_assoc.
Qed.

Lemma location_item_block_dict (idx : Z) (fields : list (string * json)) (acc : string) :
  location_item_block idx (JDict fields) acc =
    (name ← Py.getitem (JDict fields) "name";
     Ok (acc +:+ Str.of_Z idx +:+ ". " +:+ Py.str name +:+ Str.nl
           +:+ field_text "   Description: " Str.nl "description" fields
           +:+ field_text "   Asset ID: " Str.nl "assetId" fields
           +:+ quantity_text "   Quantity: " fields
           +:+ Str.nl)).
Proof.
  unfold location_item_block. unfold_monad.
  destruct (Py.getitem (JDict fields) "name") as [name|e]; [|reflexivity].
  rewrite !add_field_dict, add_quantity_dict.
  now rewrite !append_assoc.
Qed.

Lemma has_key_getitem (k : string) (v : json) :
  has_key k v = true -> exists x, Py.getitem v k = Ok x.
Proof.
  destruct v as [| | | | |fields]; try discriminate. cbn [has_key Py.getitem].
  destruct (Py.dict_get k fields) as [x|]; [now exists x | discriminate].
Qed.

(** An item of the shape of the data model gives a block. *)
Lemma search_item_block_ok (idx : Z) (item : json) :
  item_ok item = true -> exists s, search_item_block idx item EmptyString = Ok s.
Proof.
  destruct item as [| | | | |fields]; try discriminate.
  intros [Hn Hl]%andb_true_iff. rewrite search_item_block_dict.
  destruct (has_key_getitem _ _ Hn) as [name ->].
  destruct (add_location_ok "   Location: " fields EmptyString Hl) as [loc ->].
  now eexists.
Qed.

Lemma location_item_block_ok (idx : Z) (item : json) :
  item_ok item = true -> exists s, location_item_block idx item EmptyString = Ok s.
Proof.
  destruct item as [| | | | |fields]; try discriminate.
  intros [Hn Hl]%andb_true_iff. rewrite location_item_block_dict.
  destruct (has_key_getitem _ _ Hn) as [name ->]. now eexists.
Qed.

(** A loop over well-shaped elements runs to its end and extends [result]. *)
Lemma for_each_ok (block : Z -> json -> string -> outcome string) (ok : json -> bool) :
  (forall idx item, appends (block idx item)) ->
  (forall idx item, ok item = true -> exists s, block idx item EmptyString = Ok s) ->
  forall items idx acc, forallb ok items = true ->
  exists s, for_each block items idx acc = Ok (acc +:+ s).
Proof.
  intros Happ Hok items.
  induction items as [|item rest IH]; intros idx acc Hall; cbn [for_each].
  - exists EmptyString. now rewrite append_empty_r.
  - cbn [forallb] in Hall. apply andb_true_iff in Hall as [Hi Hr].
    destruct (Hok idx item Hi) as [s Hs].
    rewrite (Happ idx item acc), Hs. unfold_monad. cbn [extend].
    destruct (IH (idx + 1)%Z (acc +:+ s) Hr) as [t ->].
    exists (s +:+ t). now rewrite append_assoc.
Qed.

(** A response with a non-empty [data] list has results. *)
Lemma has_results_list (fields : list (string * json)) (items : list json) :
  Py.dict_get "data" fields = Some (JList items) -> items <> [] ->
  has_results (JDict fields) = Ok true.
Proof.
  intros Hd Hne. unfold has_results. unfold_monad. cbn [Py.contains Py.getitem].
  rewrite Hd. cbn [Py.len]. destruct items; [contradiction | reflexivity].
Qed.

(** For a positive page size the source's rounded-up quotient is the
    ceiling of [total / page_size]. *)
Lemma floor_formula_is_ceiling (total page_size : Z) :
  (0 < page_size)%Z ->
  ((total + page_size - 1) / page_size)%Z = ceil_div total page_size.
Proof.
  intros Hp. unfold ceil_div.
  pose proof (Z.div_mod (total + page_size - 1) page_size ltac:(lia)) as Hdm.
  pose proof (Z.mod_pos_bound (total + page_size - 1) page_size Hp) as Hb.
  assert (H : (- ((total + page_size - 1) / page_size) = (- total) / page_size)%Z).
  { apply (Z.div_unique_pos (- total) page_size _
             (page_size - 1 - (total + page_size - 1) mod page_size)%Z); lia. }
  lia.
Qed.

Lemma ceil_div_bounds (total page_size : Z) :
  (0 < page_size)%Z ->
  ((ceil_div total page_size - 1) * page_size < total <= ceil_div total page_size * page_size)%Z.
Proof.
  intros Hp. rewrite <- (floor_formula_is_ceiling _ _ Hp).
  pose proof (Z.div_mod (total + page_size - 1) page_size ltac:(lia)) as Hdm.
  pose proof (Z.mod_pos_bound (total + page_size - 1) page_size Hp) as Hb.
  nia.
Qed.

(** The footer added for an integer [total] and a non-zero page size. *)
Lemma add_pagination_int (fields : list (string * json)) (total page page_size : Z)
    (acc : string) :
  Py.dict_get "total" fields = Some (JInt total) -> page_size <> 0%Z ->
  add_pagination (JDict fields) page page_size acc
    = Ok (acc +:+ footer page ((total + page_size - 1) / page_size)%Z).
Proof.
  intros Ht Hp. unfold add_pagination, footer, Py.floordiv. unfold_monad.
  cbn [Py.getitem]. rewrite Ht. cbn [Py.add_int].
  apply Z.eqb_neq in Hp. rewrite Hp.
  destruct (page <? (total + page_size - 1) / page_size)%Z.
  - now rewrite ?append_assoc.
  - now rewrite ?append_assoc, ?append_empty_r.
Qed.

End Listings.

(** ** Pagination *)

(** The report of [search_items] for a well-shaped page of results. *)
Lemma search_items_report_listing (query : string) (page page_size total : Z)
    (fields : list (string * json)) (items : list json) :
  Py.dict_get "data" fields = Some (JList items) -> items <> [] ->
  forallb item_ok items = true ->
  Py.dict_get "total" fields = Some (JInt total) ->
  page_size <> 0%Z ->
  exists listing,
    search_items_report query page page_size (JDict fields)
      = Ok (("Found " +:+ Str.of_Z total +:+ " items matching '" +:+ query +:+ "':"
               +:+ Str.nl +:+ Str.nl +:+ listing)
            +:+ footer page ((total + page_size - 1) / page_size)%Z).
Proof.
  intros Hd Hne Hok Ht Hp. unfold search_items_report.
  rewrite (has_results_list _ _ Hd Hne). unfold_monad.
  cbn [Py.getitem]. rewrite Ht, Hd. cbn [Py.iter Py.str Py.repr].
  destruct (for_each_ok search_item_block item_ok search_item_block_appends
              search_item_block_ok items 1%Z
              ("Found " +:+ Str.of_Z total +:+ " items matching '" +:+ query +:+ "':"
                 +:+ Str.nl +:+ Str.nl) Hok) as [listing ->].
  exists listing. rewrite (add_pagination_int _ _ _ _ _ Ht Hp).
  now rewrite !append_assoc.
Qed.




(** Nothing is lost by taking the response to be an object whose [data]
    is a non-empty list: from a body of any other shape that passes the
    test of line 85, [search_items_report] makes no listing. *)
Lemma search_items_report_shape (query : string) (page page_size : Z)
    (body : json) (out : string) :
  has_results body = Ok true ->
  search_items_report query page page_size body = Ok out ->
  exists fields items,
    body = JDict fields /\ Py.dict_get "data" fields = Some (JList items) /\ items <> [].
Proof.
  intros Hr Hout. unfold search_items_report in Hout. rewrite Hr in Hout.
  unfold has_results in Hr. unfold_monad.
  destruct body as [|b|n|s|l|fields]; cbn [Py.contains Py.getitem] in Hr, Hout;
    try discriminate Hr; try discriminate Hout.
  destruct (Py.dict_get "data" fields) as [d|] eqn:Hd; [|discriminate Hr].
  destruct (Py.dict_get "total" fields) as [t|]; [|discriminate Hout].
  assert (Hstr : forall c rest acc,
            for_each search_item_block (JStr c :: rest) 1 acc
              = Raise (TypeError "string indices must be integers, not 'str'"))
    by reflexivity.
  destruct d as [|b|n|s|items|d]; cbn [Py.len Py.iter] in Hr, Hout;
    try discriminate Hr.
  - destruct s as [|c s]; [discriminate Hr|]. cbn [Py.chars] in Hout.
    rewrite Hstr in Hout. discriminate Hout.
  - destruct items as [|item items]; [discriminate Hr|].
    exists fields, (item :: items). now repeat split.
  - destruct d as [|[k v] d]; [discriminate Hr|]. cbn [List.map fst] in Hout.
    rewrite Hstr in Hout. discriminate Hout.
Qed.





(** ** The location shown by [search_items_by_location] *)

(** The name shown is read off the first item. *)
Lemma location_name_of_first (fields : list (string * json)) (first : json)
    (rest : list json) :
  Py.dict_get "data" fields = Some (JList (first :: rest)) ->
  location_name_of (JDict fields) =
    (c ← present_and_truthy "location" first;
     if c : bool then
       location ← Py.getitem first "location";
       Py.getitem location "name"
     else Ok (JStr "Unknown Location")).
Proof.
  intros Hd. unfold location_name_of. unfold_monad.
  cbn [Py.getitem]. rewrite Hd. reflexivity.
Qed.

Lemma location_items_report_listing (page page_size total : Z)
    (fields : list (string * json)) (items : list json) (name : json) :
  Py.dict_get "data" fields = Some (JList items) -> items <> [] ->
  forallb item_ok items = true ->
  Py.dict_get "total" fields = Some (JInt total) ->
  page_size <> 0%Z ->
  location_name_of (JDict fields) = Ok name ->
  exists body,
    location_items_report page page_size (JDict fields)
      = Ok (location_heading (JInt total) name +:+ body).
Proof.
  intros Hd Hne Hok Ht Hp Hname. unfold location_items_report.
  rewrite (has_results_list _ _ Hd Hne). unfold_monad. rewrite Hname.
  cbn [Py.getitem]. rewrite Ht, Hd. cbn [Py.iter].
  destruct (for_each_ok location_item_block item_ok location_item_block_appends
              location_item_block_ok items 1%Z
              (location_heading (JInt total) name) Hok) as [listing ->].
  rewrite (add_pagination_int _ _ _ _ _ Ht Hp).
  eexists. now rewrite append_assoc.
Qed.

(** Whenever the listing is produced, it opens with the heading, and the
    name in the heading is read off the first item. *)
Lemma location_items_report_heading (page page_size : Z)
    (fields first : list (string * json)) (rest : list json) (out : string) :
  Py.dict_get "data" fields = Some (JList (JDict first :: rest)) ->
  location_items_report page page_size (JDict fields) = Ok out ->
  exists (total name : json) (body : string),
    Py.dict_get "total" fields = Some total /\
    out = location_heading total name +:+ body /\
    match field_value "location" first with
    | Some location => Py.getitem location "name" = Ok name
    | None => name = JStr "Unknown Location"
    end.
Proof.
  intros Hd. unfold location_items_report.
  rewrite (has_results_list _ _ Hd ltac:(discriminate)).
  rewrite (location_name_of_first _ _ _ Hd), present_and_truthy_dict. unfold_monad.
  assert (Hrun : forall name total,
            (result ← for_each location_item_block (JDict first :: rest) 1%Z
                        (location_heading total name);
             add_pagination (JDict fields) page page_size result) = Ok out ->
            exists body, out = location_heading total name +:+ body).
  { intros name total. unfold_monad.
    rewrite (for_each_appends _ location_item_block_appends).
    destruct (for_each location_item_block (JDict first :: rest) 1 EmptyString)
      as [listing|e]; [|discriminate].
    cbn [extend]. rewrite add_pagination_appends.
    destruct (add_pagination (JDict fields) page page_size EmptyString) as [foot|e];
      [|discriminate].
    cbn [extend]. intros [= <-]. exists (listing +:+ foot). now rewrite append_assoc. }
  cbn [Py.getitem]. rewrite Hd. cbn [Py.iter].
  destruct (field_value "location" first) as [loc|] eqn:E.
  - change (match Py.dict_get "location" first with
            | Some x => Ok x
            | None => Raise (KeyError (Py.quote "location"))
            end) with (Py.getitem (JDict first) "location").
    rewrite (getitem_field_value _ _ _ E).
    destruct (Py.getitem loc "name") as [name|e]; [|discriminate].
    destruct (Py.dict_get "total" fields) as [total|]; [|discriminate].
    intros H. destruct (Hrun name total H) as [body ->].
    now exists total, name, body.
  - destruct (Py.dict_get "total" fields) as [total|]; [|discriminate].
    intros H. destruct (Hrun (JStr "Unknown Location") total H) as [body ->].
    now exists total, (JStr "Unknown Location"), body.
Qed.

(** C9: whenever a response whose [data] list begins with an item that is
    an object makes [search_items_by_location] produce its listing, the
    heading names the location by the [name] of that first item's
    [location] when the field is present and truthy, and by
    [Unknown Location] otherwise, whatever [location_id] was asked for. *)
Theorem location_name_from_first_item (self : Valves) (net : Network)
    (location_id : string) (page page_size : Z)
    (fields first : list (string * json)) (rest : list json) (out : string) :
  homebox_url self <> EmptyString ->
  http_json net (location_items_request self location_id page page_size)
    = Ok (JDict fields) ->
  Py.dict_get "data" fields = Some (JList (JDict first :: rest)) ->
  location_items_report page page_size (JDict fields) = Ok out ->
  returned (search_items_by_location self net location_id page page_size) = Ok out /\
  exists (total name : json) (body : string),
    Py.dict_get "total" fields = Some total /\
    out = "Found " +:+ Py.str total +:+ " items in location '" +:+ Py.str name
            +:+ "':" +:+ Str.nl +:+ Str.nl +:+ body /\
    match field_value "location" first with
    | Some location => Py.getitem location "name" = Ok name
    | None => name = JStr "Unknown Location"
    end.
Proof.
  intros Hn Hj Hd Hout. split.
  - unfold returned. rewrite (search_items_by_location_run _ _ _ _ _ Hn), Hj. cbn [fst].
    unfold_monad. now rewrite Hout.
  - destruct (location_items_report_heading _ _ _ _ _ _ Hd Hout)
      as (total & name & body & Ht & -> & Hrule).
    exists total, name, body. split; [exact Ht|]. split; [|exact Hrule].
    unfold location_heading. now rewrite !append_assoc.
Qed.

(** For a response with an integer [total], a non-zero page size and
    well-shaped items the listing is produced. *)
Lemma location_listing_produced (page page_size total : Z)
    (fields first : list (string * json)) (rest : list json) :
  Py.dict_get "data" fields = Some (JList (JDict first :: rest)) ->
  forallb item_ok (JDict first :: rest) = true ->
  Py.dict_get "total" fields = Some (JInt total) ->
  page_size <> 0%Z ->
  exists out, location_items_report page page_size (JDict fields) = Ok out.
Proof.
  intros Hd Hok Ht Hp.
  assert (Hname : exists name, location_name_of (JDict fields) = Ok name).
  { rewrite (location_name_of_first _ _ _ Hd), present_and_truthy_dict. unfold_monad.
    cbn [forallb item_ok] in Hok.
    apply andb_true_iff in Hok as [[_ Hl]%andb_true_iff _].
    unfold location_ok in Hl.
    destruct (field_value "location" first) as [loc|] eqn:E; [|now eexists].
    rewrite (getitem_field_value _ _ _ E).
    destruct (has_key_getitem _ _ Hl) as [name Hg]. exists name. now rewrite Hg. }
  destruct Hname as (name & Hname).
  destruct (location_items_report_listing page page_size total fields _ name
              Hd ltac:(discriminate) Hok Ht Hp Hname) as [body Hb].
  eexists. exact Hb.
Qed.

(** A page whose first item lies in the location named [Garage], asked for
    under another identifier: the heading says [Garage]. *)
Lemma location_name_from_first_item_garage :
  returned (search_items_by_location (mkValves "https://h.example.com" "" "")
              (fun _ => Ok (mkResponse (Ok tt)
                 (Ok (JDict [("total", JInt 1);
                             ("data", JList [JDict [("name", JStr "drill");
                                                    ("location", JDict [("name", JStr "Garage")])]])]))))
              "attic-id" 1 20)
    = Ok ("Found 1 items in location 'Garage':" +:+ Str.nl +:+ Str.nl
            +:+ "1. drill" +:+ Str.nl +:+ Str.nl +:+ "Page 1 of 1" +:+ Str.nl).
Proof.
  exact (proj1 (location_name_from_first_item
           (mkValves "https://h.example.com" "" "")
           (fun _ => Ok (mkResponse (Ok tt)
              (Ok (JDict [("total", JInt 1);
                          ("data", JList [JDict [("name", JStr "drill");
                                                 ("location", JDict [("name", JStr "Garage")])]])]))))
           "attic-id" 1 20
           [("total", JInt 1);
            ("data", JList [JDict [("name", JStr "drill");
                                   ("location", JDict [("name", JStr "Garage")])]])]
           [("name", JStr "drill"); ("location", JDict [("name", JStr "Garage")])]
           []
           ("Found 1 items in location 'Garage':" +:+ Str.nl +:+ Str.nl
              +:+ "1. drill" +:+ Str.nl +:+ Str.nl +:+ "Page 1 of 1" +:+ Str.nl)
           ltac:(discriminate) eq_refl eq_refl eq_refl)).
Defined.

(** ** Item details *)

Section Details.

(** What [add_location] does on an object depends on the truthy value of
    its [location] only. *)
Lemma add_location_field_value (before : string) (f1 f2 : list (string * json))
    (acc : string) :
  field_value "location" f1 = field_value "location" f2 ->
  add_location before (JDict f1) acc = add_location before (JDict f2) acc.
Proof.
  intros H. unfold add_location. rewrite !present_and_truthy_dict, <- H. unfold_monad.
  destruct (field_value "location" f1) as [loc|] eqn:E; [|reflexivity].
  symmetry in H.
  now rewrite (getitem_field_value _ _ _ E), (getitem_field_value _ _ _ H).
Qed.

Lemma add_custom_fields_field_value (f1 f2 : list (string * json)) (acc : string) :
  field_value "fields" f1 = field_value "fields" f2 ->
  add_custom_fields (JDict f1) acc = add_custom_fields (JDict f2) acc.
Proof.
  intros H. unfold add_custom_fields. rewrite !present_and_truthy_dict, <- H. unfold_monad.
  destruct (field_value "fields" f1) as [v|] eqn:E; [|reflexivity].
  symmetry in H.
  now rewrite (getitem_field_value _ _ _ E), (getitem_field_value _ _ _ H).
Qed.

(** The head of the details report of an object, in one piece. *)
Lemma details_head_dict (fields : list (string * json)) :
  details_head (JDict fields) =
    (name ← Py.getitem (JDict fields) "name";
     location ← add_location (Str.nl +:+ "Location: ") (JDict fields) EmptyString;
     Ok ("Item Details: " +:+ Py.str name +:+ Str.nl +:+ Str.nl
           +:+ field_text "Description: " (Str.nl +:+ Str.nl) "description" fields
           +:+ "Basic Information:" +:+ Str.nl
           +:+ field_text "- Asset ID: " Str.nl "assetId" fields
           +:+ quantity_text "- Quantity: " fields
           +:+ field_text "- Manufacturer: " Str.nl "manufacturer" fields
           +:+ field_text "- Model Number: " Str.nl "modelNumber" fields
           +:+ field_text "- Serial Number: " Str.nl "serialNumber" fields
           +:+ location
           +:+ purchase_block fields)).
Proof.
  unfold details_head. unfold_monad.
  destruct (Py.getitem (JDict fields) "name") as [name|e]; [|reflexivity].
  rewrite !add_field_dict, add_quantity_dict, !add_field_dict.
  rewrite add_location_appends.
  destruct (add_location (Str.nl +:+ "Location: ") (JDict fields) EmptyString) as [loc|e];
    [|reflexivity].
  cbn [extend]. rewrite purchase_info_dict.
  assert (Hb : forall heading info acc,
             add_info_block heading info acc
               = acc +:+ add_info_block heading info EmptyString).
  { intros heading [|x info] acc; [now rewrite append_empty_r | reflexivity]. }
  rewrite Hb. unfold purchase_block. now rewrite !append_assoc.
Qed.

(** The report is the head, the warranty block and the tail, in this
    order. *)
Lemma item_details_report_dict (fields : list (string * json)) :
  item_details_report (JDict fields) =
    (pre ← details_head (JDict fields);
     post ← details_tail (JDict fields) EmptyString;
     Ok (pre +:+ warranty_block fields +:+ post)).
Proof.
  unfold item_details_report. unfold_monad.
  destruct (details_head (JDict fields)) as [pre|e]; [|reflexivity].
  rewrite add_warranty_dict, details_tail_appends.
  destruct (details_tail (JDict fields) EmptyString) as [post|e]; [|reflexivity].
  cbn [extend]. now rewrite append_assoc.
Qed.

Lemma custom_field_line_ok (idx : Z) (field : json) :
  custom_field_ok field = true ->
  exists s, custom_field_line idx field EmptyString = Ok s.
Proof.
  intros [Hn Hv]%andb_true_iff. unfold custom_field_line. unfold_monad.
  destruct (has_key_getitem _ _ Hn) as [name ->].
  destruct (has_key_getitem _ _ Hv) as [value ->]. now eexists.
Qed.

Lemma details_head_ok (fields : list (string * json)) :
  item_ok (JDict fields) = true -> exists pre, details_head (JDict fields) = Ok pre.
Proof.
  intros [Hn Hl]%andb_true_iff. rewrite details_head_dict. unfold_monad.
  destruct (has_key_getitem _ _ Hn) as [name ->].
  destruct (add_location_ok (Str.nl +:+ "Location: ") fields EmptyString Hl) as [loc ->].
  now eexists.
Qed.

Lemma details_tail_ok (fields : list (string * json)) :
  custom_fields_ok fields = true ->
  exists post, details_tail (JDict fields) EmptyString = Ok post.
Proof.
  intros Hc. unfold details_tail, add_custom_fields, custom_fields_ok in *.
  rewrite present_and_truthy_dict. unfold_monad.
  destruct (field_value "fields" fields) as [v|] eqn:E.
  - rewrite (getitem_field_value _ _ _ E).
    destruct v as [| | | |l|]; try discriminate. cbn [Py.iter].
    destruct (for_each_ok custom_field_line custom_field_ok custom_field_line_appends
                custom_field_line_ok l 1%Z
                (EmptyString +:+ Str.nl +:+ "Custom Fields:" +:+ Str.nl) Hc) as [s ->].
    rewrite add_field_dict. now eexists.
  - rewrite add_field_dict. now eexists.
Qed.

(** The warranty block is empty exactly when no warranty field is present
    and truthy. *)
Lemma warranty_block_empty (fields : list (string * json)) :
  warranty_block fields = EmptyString <->
  field_value "lifetimeWarranty" fields = None /\
  field_value "warrantyDetails" fields = None /\
  field_value "warrantyExpires" fields = None.
Proof.
  unfold warranty_block, warranty_lines, info_line.
  destruct (field_value "lifetimeWarranty" fields);
    destruct (field_value "warrantyDetails" fields);
    destruct (field_value "warrantyExpires" fields);
    cbn; split; try discriminate; try tauto;
    intros (H1 & H2 & H3); discriminate.
Qed.

(** When not empty, the block is the heading and the lines. *)
Lemma warranty_block_lines (fields : list (string * json)) :
  warranty_block fields <> EmptyString ->
  warranty_block fields
    = Str.nl +:+ "Warranty Information:" +:+ Str.nl
        +:+ String.concat Str.nl (warranty_lines fields) +:+ Str.nl.
Proof.
  unfold warranty_block. destruct (warranty_lines fields); [now intros []|].
  intros _. cbn [add_info_block]. simpl. now rewrite ?append_assoc.
Qed.

(** The line for a lifetime warranty is there exactly when the flag is
    truthy. *)
Lemma lifetime_line (fields : list (string * json)) :
  In "- Lifetime Warranty: Yes" (warranty_lines fields) <->
  field_value "lifetimeWarranty" fields <> None.
Proof.
  unfold warranty_lines, info_line.
  destruct (field_value "lifetimeWarranty" fields).
  - split; [discriminate | intros _; now left].
  - split; [|congruence]. cbn [app]. intros H.
    destruct (field_value "warrantyDetails" fields);
      destruct (field_value "warrantyExpires" fields);
      cbn in H; intuition discriminate.
Qed.

End Details.

(** ** Reports depend on the fields they read *)

Section Congruence.

Variables f1 f2 : list (string * json).

Lemma field_text_congr (before after k : string) :
  field_value k f1 = field_value k f2 ->
  field_text before after k f1 = field_text before after k f2.
Proof. intros H. unfold field_text. now rewrite H. Qed.

Lemma info_line_congr (before k : string) :
  field_value k f1 = field_value k f2 -> info_line before k f1 = info_line before k f2.
Proof. intros H. unfold info_line. now rewrite H. Qed.

Ltac agree_fields Hk :=
  repeat match goal with
    | |- context [field_text ?b ?a ?k f1] =>
        rewrite (field_text_congr b a k (Hk k ltac:(cbn; tauto)))
    | |- context [info_line ?b ?k f1] =>
        rewrite (info_line_congr b k (Hk k ltac:(cbn; tauto)))
    end.


Lemma location_item_block_congr (idx : Z) (acc : string) :
  agree_on location_item_fields f1 f2 ->
  location_item_block idx (JDict f1) acc = location_item_block idx (JDict f2) acc.
Proof.
  intros (Hn & Hq & Hk). rewrite !location_item_block_dict.
  unfold quantity_text. cbn [Py.getitem]. rewrite Hn, Hq.
  now agree_fields Hk.
Qed.

Lemma details_head_congr :
  agree_on details_head_fields f1 f2 ->
  details_head (JDict f1) = details_head (JDict f2).
Proof.
  intros (Hn & Hq & Hk). rewrite !details_head_dict.
  unfold quantity_text, purchase_block, purchase_lines. cbn [Py.getitem]. rewrite Hn, Hq.
  rewrite (add_location_field_value _ f1 f2) by (apply Hk; cbn; tauto).
  now agree_fields Hk.
Qed.


Lemma details_tail_congr (acc : string) :
  (forall k, In k details_tail_fields -> field_value k f1 = field_value k f2) ->
  details_tail (JDict f1) acc = details_tail (JDict f2) acc.
Proof.
  intros Hk. unfold details_tail.
  rewrite (add_custom_fields_field_value f1 f2) by (apply Hk; cbn; tauto).
  unfold_monad. destruct (add_custom_fields (JDict f2) acc); [|reflexivity].
  rewrite !add_field_dict.
  now rewrite (field_text_congr _ _ _ (Hk "notes" ltac:(cbn; tauto))).
Qed.


End Congruence.

Section Removal.

Variable fields : list (string * json).



(** Taking away a key that a part of the report does not read. *)
Lemma agree_on_remove_other (keys : list string) (k : string) :
  k <> "name" -> k <> "quantity" -> ~ In k keys ->
  agree_on keys (Py.dict_remove k fields) fields.
Proof.
  intros Hn Hq Hk. repeat split.
  - now apply dict_get_remove_ne.
  - now apply dict_get_remove_ne.
  - intros k' Hin. apply field_value_remove_ne. congruence.
Qed.



End Removal.

(** ** The warranty block *)

(** C8: for a response that is a well-shaped item, the report of
    [get_item_details] is a head, the warranty block and a tail; head and
    tail do not read the warranty fields; the block is empty exactly when
    none of the lifetime flag, the warranty details and the warranty expiry
    is present and truthy, and is otherwise the heading
    [Warranty Information:] over the warranty lines, among which
    [- Lifetime Warranty: Yes] stands exactly when the flag is truthy. *)
Theorem get_item_details_warranty_block (self : Valves) (net : Network)
    (item_id : string) (fields : list (string * json)) :
  homebox_url self <> EmptyString ->
  http_json net (details_request self item_id) = Ok (JDict fields) ->
  item_ok (JDict fields) = true ->
  custom_fields_ok fields = true ->
  exists pre post,
    returned (get_item_details self net item_id)
      = Ok (pre +:+ warranty_block fields +:+ post) /\
    details_head (JDict fields) = Ok pre /\
    details_tail (JDict fields) EmptyString = Ok post /\
    (forall k, In k warranty_fields ->
       details_head (JDict (Py.dict_remove k fields)) = Ok pre /\
       details_tail (JDict (Py.dict_remove k fields)) EmptyString = Ok post) /\
    (warranty_block fields = EmptyString <->
       field_value "lifetimeWarranty" fields = None /\
       field_value "warrantyDetails" fields = None /\
       field_value "warrantyExpires" fields = None) /\
    (warranty_block fields <> EmptyString ->
       warranty_block fields
         = Str.nl +:+ "Warranty Information:" +:+ Str.nl
             +:+ String.concat Str.nl (warranty_lines fields) +:+ Str.nl) /\
    (In "- Lifetime Warranty: Yes" (warranty_lines fields) <->
       field_value "lifetimeWarranty" fields <> None).
Proof.
  intros Hn Hj Hok Hcf.
  destruct (details_head_ok fields Hok) as [pre Hpre].
  destruct (details_tail_ok fields Hcf) as [post Hpost].
  exists pre, post. split; [|split; [exact Hpre|split; [exact Hpost|split]]].
  - unfold returned. rewrite (get_item_details_run _ _ _ Hn), Hj. cbn [fst].
    unfold_monad. rewrite item_details_report_dict. unfold_monad.
    now rewrite Hpre, Hpost.
  - intros k Hk. rewrite <- Hpre, <- Hpost. split.
    + apply details_head_congr, agree_on_remove_other;
        cbn in Hk |- *; intuition (subst; discriminate).
    + apply details_tail_congr. intros k' Hk'. apply field_value_remove_ne.
      cbn in Hk, Hk'. intuition (subst; discriminate).
  - split; [apply warranty_block_empty|].
    split; [apply warranty_block_lines | apply lifetime_line].
Qed.

(** The example of the specification: a payload with no warranty field
    gives a report with nothing between head and tail. *)
Lemma get_item_details_no_warranty_fields :
  exists pre post,
    returned (get_item_details (mkValves "https://h.example.com" "" "")
                (fun _ => Ok (mkResponse (Ok tt)
                   (Ok (JDict [("name", JStr "drill"); ("quantity", JInt 1)]))))
                "abc")
      = Ok (pre +:+ EmptyString +:+ post) /\
    details_head (JDict [("name", JStr "drill"); ("quantity", JInt 1)]) = Ok pre /\
    details_tail (JDict [("name", JStr "drill"); ("quantity", JInt 1)]) EmptyString = Ok post.
Proof.
  destruct (get_item_details_warranty_block
              (mkValves "https://h.example.com" "" "")
              (fun _ => Ok (mkResponse (Ok tt)
                 (Ok (JDict [("name", JStr "drill"); ("quantity", JInt 1)]))))
              "abc" [("name", JStr "drill"); ("quantity", JInt 1)]
              ltac:(discriminate) eq_refl eq_refl eq_refl)
    as (pre & post & H & Hpre & Hpost & _).
  exists pre, post. split; [exact H | split; assumption].
Defined.

(** The same payload, evaluated: the text holds no warranty heading. *)
Example get_item_details_no_warranty_heading :
  returned (get_item_details (mkValves "https://h.example.com" "" "")
              (fun _ => Ok (mkResponse (Ok tt)
                 (Ok (JDict [("name", JStr "drill"); ("quantity", JInt 1)]))))
              "abc")
    = Ok ("Item Details: drill" +:+ Str.nl +:+ Str.nl +:+ "Basic Information:" +:+ Str.nl
            +:+ "- Quantity: 1" +:+ Str.nl) /\
  Str.is_substring "Warranty Information"
    ("Item Details: drill" +:+ Str.nl +:+ Str.nl +:+ "Basic Information:" +:+ Str.nl
       +:+ "- Quantity: 1" +:+ Str.nl) = false.
Proof. split; vm_compute; reflexivity. Qed.

(** ** Optional fields and the quantity *)

Section Quantity.

Variable fields : list (string * json).
Variable v : json.
Hypothesis Hq : Py.dict_get "quantity" fields = Some v.





End Quantity.


(** An item with a quantity of 0 and an empty description: the quantity
    line is there, the description line is not. *)
Example search_item_block_zero_quantity :
  search_item_block 1 (JDict [("name", JStr "drill"); ("description", JStr EmptyString);
                              ("quantity", JInt 0)]) EmptyString
    = Ok ("1. drill" +:+ Str.nl +:+ "   Quantity: 0" +:+ Str.nl +:+ Str.nl).
Proof. vm_compute. reflexivity. Qed.

(** * Further properties of the operations *)

(** ** Requests *)

(** A call with the default page arguments against a server that refuses
    the connection: the one request is sent all the same. *)
Lemma one_request_per_call_refused :
  sent (search_items (mkValves "https://h.example.com" "" "")
          (fun _ => Raise (RequestException "connection refused")) "drill" 1 20)
    = [mkRequest "https://h.example.com/api/v1/items"
         (Some [("q", JStr "drill"); ("page", JInt 1); ("pageSize", JInt 20)])
         json_headers].
Proof.
  exact (proj1 (one_request_per_call (mkValves "https://h.example.com" "" "")
                  (fun _ => Raise (RequestException "connection refused"))
                  "drill" "" "" 1 20 ltac:(discriminate))).
Defined.

Lemma rstrip_all (c : ascii) (n : nat) : Str.rstrip c (Str.replicate n c) = EmptyString.
Proof.
  induction n as [|n IH]; cbn [Str.replicate Str.rstrip]; [reflexivity|].
  now rewrite IH, Ascii.eqb_refl.
Qed.

(** The configuration check reads the URL before its slashes are
    stripped: a base URL made of slashes only is not empty, passes the
    check, and normalises to [/api], so that the request goes to a path
    with no host. *)
Theorem slash_only_url_is_sent (n : nat) (id secret : string) (net : Network)
    (query item_id location_id : string) (page page_size : Z) :
  let self := mkValves (Str.replicate (S n) "/") id secret in
  normalize_base_url (homebox_url self) = "/api" /\
  List.map req_url (sent (search_items self net query page page_size))
    = ["/api/v1/items"] /\
  List.map req_url (sent (get_item_details self net item_id))
    = ["/api/v1/items/" +:+ item_id] /\
  List.map req_url (sent (list_locations self net)) = ["/api/v1/locations"] /\
  List.map req_url (sent (search_items_by_location self net location_id page page_size))
    = ["/api/v1/items"].
Proof.
  intros self.
  assert (Hn : homebox_url self <> EmptyString) by discriminate.
  assert (Hu : normalize_base_url (homebox_url self) = "/api").
  { unfold normalize_base_url. cbv zeta.
    change (homebox_url self) with (Str.replicate (S n) "/").
    now rewrite rstrip_all. }
  split; [exact Hu|]. unfold sent.
  rewrite (search_items_run _ _ _ _ _ Hn), (get_item_details_run _ _ _ Hn),
    (list_locations_run _ _ Hn), (search_items_by_location_run _ _ _ _ _ Hn).
  cbn [snd List.map search_request details_request locations_request
         location_items_request req_url].
  rewrite Hu. repeat split.
Qed.

(** ** Responses without results, and responses that lack a field *)

Lemma has_results_none (fields : list (string * json)) :
  Py.dict_get "data" fields = None \/
    (exists d, Py.dict_get "data" fields = Some d /\ Py.len d = Ok 0%Z) ->
  has_results (JDict fields) = Ok false.
Proof.
  unfold has_results. unfold_monad. cbn [Py.contains Py.getitem].
  intros [-> | (d & -> & ->)]; reflexivity.
Qed.

(** A response object that has no [data] key, or whose [data] has length
    0, is not an error: each of the three listing operations answers with
    its own text for no results. *)
Theorem no_results_without_data (self : Valves) (net : Network)
    (query location_id : string) (page page_size : Z) (fields : list (string * json)) :
  homebox_url self <> EmptyString ->
  Py.dict_get "data" fields = None \/
    (exists d, Py.dict_get "data" fields = Some d /\ Py.len d = Ok 0%Z) ->
  (http_json net (search_request self query page page_size) = Ok (JDict fields) ->
   returned (search_items self net query page page_size)
     = Ok ("No items found matching '" +:+ query +:+ "'.")) /\
  (http_json net (locations_request self) = Ok (JDict fields) ->
   returned (list_locations self net) = Ok "No locations found.") /\
  (http_json net (location_items_request self location_id page page_size)
     = Ok (JDict fields) ->
   returned (search_items_by_location self net location_id page page_size)
     = Ok "No items found in the specified location.").
Proof.
  intros Hn Hd. pose proof (has_results_none fields Hd) as Hr. unfold returned.
  rewrite (search_items_run _ _ _ _ _ Hn), (list_locations_run _ _ Hn),
    (search_items_by_location_run _ _ _ _ _ Hn). cbn [fst].
  repeat split; intros ->; unfold_monad;
    unfold search_items_report, locations_report, location_items_report;
    now rewrite Hr.
Qed.

(** A response that holds a [total] and nothing else. *)
Lemma no_results_without_data_total_only :
  returned (list_locations (mkValves "https://h.example.com" "" "")
              (fun _ => Ok (mkResponse (Ok tt) (Ok (JDict [("total", JInt 7)])))))
    = Ok "No locations found.".
Proof.
  exact (proj1 (proj2 (no_results_without_data
           (mkValves "https://h.example.com" "" "")
           (fun _ => Ok (mkResponse (Ok tt) (Ok (JDict [("total", JInt 7)]))))
           "" "" 1 20 [("total", JInt 7)]
           ltac:(discriminate) (or_introl eq_refl))) eq_refl).
Defined.

(** A JSON array at the top level is searched for the string [data], not
    for a key: an array of objects never holds it, and each listing
    operation answers that there are no results, however many objects the
    array has. *)
Theorem array_body_gives_no_results (self : Valves) (net : Network)
    (query location_id : string) (page page_size : Z)
    (objects : list (list (string * json))) :
  homebox_url self <> EmptyString ->
  (http_json net (search_request self query page page_size)
     = Ok (JList (List.map JDict objects)) ->
   returned (search_items self net query page page_size)
     = Ok ("No items found matching '" +:+ query +:+ "'.")) /\
  (http_json net (locations_request self) = Ok (JList (List.map JDict objects)) ->
   returned (list_locations self net) = Ok "No locations found.") /\
  (http_json net (location_items_request self location_id page page_size)
     = Ok (JList (List.map JDict objects)) ->
   returned (search_items_by_location self net location_id page page_size)
     = Ok "No items found in the specified location.").
Proof.
  intros Hn.
  assert (Hr : has_results (JList (List.map JDict objects)) = Ok false).
  { unfold has_results. unfold_monad. cbn [Py.contains].
    replace (existsb (Py.eq_str "data") (List.map JDict objects)) with false;
      [reflexivity|].
    induction objects as [|o rest IH]; [reflexivity | exact IH]. }
  unfold returned.
  rewrite (search_items_run _ _ _ _ _ Hn), (list_locations_run _ _ Hn),
    (search_items_by_location_run _ _ _ _ _ Hn). cbn [fst].
  repeat split; intros ->; unfold_monad;
    unfold search_items_report, locations_report, location_items_report;
    now rewrite Hr.
Qed.

(** Two locations sent as a bare array. *)
Lemma array_body_two_locations :
  returned (list_locations (mkValves "https://h.example.com" "" "")
              (fun _ => Ok (mkResponse (Ok tt)
                 (Ok (JList [JDict [("id", JStr "a1"); ("name", JStr "Attic")];
                             JDict [("id", JStr "g1"); ("name", JStr "Garage")]])))))
    = Ok "No locations found.".
Proof.
  exact (proj1 (proj2 (array_body_gives_no_results
           (mkValves "https://h.example.com" "" "")
           (fun _ => Ok (mkResponse (Ok tt)
              (Ok (JList [JDict [("id", JStr "a1"); ("name", JStr "Attic")];
                          JDict [("id", JStr "g1"); ("name", JStr "Garage")]]))))
           "" "" 1 20
           [[("id", JStr "a1"); ("name", JStr "Attic")];
            [("id", JStr "g1"); ("name", JStr "Garage")]]
           ltac:(discriminate))) eq_refl).
Defined.

(** A loop stops at the first element whose block raises, and what the
    earlier turns added to [result] is lost with it. *)
Lemma for_each_raises (block : Z -> json -> string -> outcome string) (ok : json -> bool) :
  (forall idx item, appends (block idx item)) ->
  (forall idx item, ok item = true -> exists s, block idx item EmptyString = Ok s) ->
  forall (good : list json) (bad : json) (rest : list json) (e : exn),
  forallb ok good = true ->
  (forall idx, block idx bad EmptyString = Raise e) ->
  forall idx acc, for_each block (good ++ bad :: rest) idx acc = Raise e.
Proof.
  intros Happ Hok good bad rest e Hgood Hbad.
  induction good as [|item good IH]; intros idx acc; cbn [app for_each].
  - rewrite (Happ idx bad acc), Hbad. reflexivity.
  - cbn [forallb] in Hgood. apply andb_true_iff in Hgood as [Hi Hg].
    destruct (Hok idx item Hi) as [s Hs].
    rewrite (Happ idx item acc), Hs. unfold_monad. cbn [extend]. now apply IH.
Qed.

Lemma getitem_missing (k : string) (fields : list (string * json)) :
  Py.dict_get k fields = None ->
  Py.getitem (JDict fields) k = Raise (KeyError (Py.quote k)).
Proof. intros H. cbn [Py.getitem]. now rewrite H. Qed.

(** The name shown for the location can be read when the first item is an
    object whose [location], if truthy, has a name. *)
Lemma location_name_of_ok (fields first : list (string * json)) (rest : list json) :
  Py.dict_get "data" fields = Some (JList (JDict first :: rest)) ->
  location_ok first = true ->
  exists name, location_name_of (JDict fields) = Ok name.
Proof.
  intros Hd Hl. rewrite (location_name_of_first _ _ _ Hd), present_and_truthy_dict.
  unfold_monad. unfold location_ok in Hl.
  destruct (field_value "location" first) as [loc|] eqn:E; [|now eexists].
  rewrite (getitem_field_value _ _ _ E).
  destruct (has_key_getitem _ _ Hl) as [name Hg]. exists name. now rewrite Hg.
Qed.

(** A page of results whose object has no [total]: [search_items] reads
    [total] for the heading before it looks at any item, and returns the
    text of the [KeyError]; [search_items_by_location] does the same once
    it has read the name of the location off the first item. *)
Theorem missing_total_error (self : Valves) (net : Network)
    (query location_id : string) (page page_size : Z)
    (fields : list (string * json)) (first : json) (rest : list json) :
  homebox_url self <> EmptyString ->
  Py.dict_get "data" fields = Some (JList (first :: rest)) ->
  Py.dict_get "total" fields = None ->
  (http_json net (search_request self query page page_size) = Ok (JDict fields) ->
   returned (search_items self net query page page_size)
     = Ok "Unexpected error: 'total'") /\
  (http_json net (location_items_request self location_id page page_size)
     = Ok (JDict fields) ->
   (exists f, first = JDict f /\ location_ok f = true) ->
   returned (search_items_by_location self net location_id page page_size)
     = Ok "Unexpected error: 'total'").
Proof.
  intros Hn Hd Ht.
  pose proof (has_results_list fields (first :: rest) Hd ltac:(discriminate)) as Hr.
  unfold returned.
  rewrite (search_items_run _ _ _ _ _ Hn), (search_items_by_location_run _ _ _ _ _ Hn).
  cbn [fst]. split.
  - intros ->. unfold_monad. unfold search_items_report. rewrite Hr. unfold_monad.
    now rewrite (getitem_missing _ _ Ht).
  - intros -> (f & -> & Hl). unfold_monad. unfold location_items_report. rewrite Hr.
    unfold_monad. destruct (location_name_of_ok _ _ _ Hd Hl) as [name ->].
    now rewrite (getitem_missing _ _ Ht).
Qed.

(** One item and no [total]. *)
Lemma missing_total_error_one_item :
  returned (search_items (mkValves "https://h.example.com" "" "")
              (fun _ => Ok (mkResponse (Ok tt)
                 (Ok (JDict [("data", JList [JDict [("name", JStr "drill")]])]))))
              "drill" 1 20)
    = Ok "Unexpected error: 'total'".
Proof.
  exact (proj1 (missing_total_error
           (mkValves "https://h.example.com" "" "")
           (fun _ => Ok (mkResponse (Ok tt)
              (Ok (JDict [("data", JList [JDict [("name", JStr "drill")]])]))))
           "drill" "" 1 20
           [("data", JList [JDict [("name", JStr "drill")]])]
           (JDict [("name", JStr "drill")]) []
           ltac:(discriminate) eq_refl eq_refl) eq_refl).
Defined.

Lemma search_item_block_nameless (idx : Z) (fields : list (string * json)) :
  Py.dict_get "name" fields = None ->
  search_item_block idx (JDict fields) EmptyString = Raise (KeyError "'name'").
Proof. intros H. unfold search_item_block. now rewrite (getitem_missing _ _ H). Qed.

Lemma location_item_block_nameless (idx : Z) (fields : list (string * json)) :
  Py.dict_get "name" fields = None ->
  location_item_block idx (JDict fields) EmptyString = Raise (KeyError "'name'").
Proof. intros H. unfold location_item_block. now rewrite (getitem_missing _ _ H). Qed.

(** One item without a [name] costs the whole page: when the response
    has a [total] and the items before it are well shaped,
    [search_items] returns the text of the [KeyError] and nothing of the
    listing built so far; so does [search_items_by_location], provided
    that, when the item without a name is the first of the page, the name
    of the location can be read off it (its [location] is absent, falsy or
    an object with a name). *)
Theorem item_without_name_error (self : Valves) (net : Network)
    (query location_id : string) (page page_size : Z)
    (fields bad : list (string * json)) (good rest : list json) (total : json) :
  homebox_url self <> EmptyString ->
  Py.dict_get "data" fields = Some (JList (good ++ JDict bad :: rest)) ->
  forallb item_ok good = true ->
  Py.dict_get "name" bad = None ->
  Py.dict_get "total" fields = Some total ->
  (http_json net (search_request self query page page_size) = Ok (JDict fields) ->
   returned (search_items self net query page page_size)
     = Ok "Unexpected error: 'name'") /\
  (http_json net (location_items_request self location_id page page_size)
     = Ok (JDict fields) ->
   (good = [] -> location_ok bad = true) ->
   returned (search_items_by_location self net location_id page page_size)
     = Ok "Unexpected error: 'name'").
Proof.
  intros Hn Hd Hgood Hbad Ht.
  assert (Hne : good ++ JDict bad :: rest <> []) by now destruct good.
  pose proof (has_results_list fields _ Hd Hne) as Hr.
  unfold returned.
  rewrite (search_items_run _ _ _ _ _ Hn), (search_items_by_location_run _ _ _ _ _ Hn).
  cbn [fst]. split.
  - intros ->. unfold_monad. unfold search_items_report. rewrite Hr. unfold_monad.
    cbn [Py.getitem]. rewrite Ht, Hd. cbn [Py.iter].
    now rewrite (for_each_raises search_item_block item_ok search_item_block_appends
                   search_item_block_ok good (JDict bad) rest (KeyError "'name'") Hgood
                   (fun idx => search_item_block_nameless idx bad Hbad)).
  - intros -> Hl. unfold_monad. unfold location_items_report. rewrite Hr. unfold_monad.
    assert (Hname : exists name, location_name_of (JDict fields) = Ok name).
    { destruct good as [|g good'].
      - exact (location_name_of_ok fields bad rest Hd (Hl eq_refl)).
      - cbn [forallb] in Hgood. apply andb_true_iff in Hgood as [Hg _].
        destruct g as [| | | | |f]; try discriminate.
        apply andb_true_iff in Hg as [_ Hg].
        exact (location_name_of_ok fields f _ Hd Hg). }
    destruct Hname as [name ->].
    cbn [Py.getitem]. rewrite Ht, Hd. cbn [Py.iter].
    now rewrite (for_each_raises location_item_block item_ok location_item_block_appends
                   location_item_block_ok good (JDict bad) rest (KeyError "'name'") Hgood
                   (fun idx => location_item_block_nameless idx bad Hbad)).
Qed.

(** A page of three items, the last of which has no name. *)
Lemma item_without_name_error_third :
  returned (search_items (mkValves "https://h.example.com" "" "")
              (fun _ => Ok (mkResponse (Ok tt)
                 (Ok (JDict [("total", JInt 3);
                             ("data", JList [JDict [("name", JStr "drill")];
                                             JDict [("name", JStr "saw")];
                                             JDict [("quantity", JInt 2)]])]))))
              "tool" 1 20)
    = Ok "Unexpected error: 'name'".
Proof.
  exact (proj1 (item_without_name_error
           (mkValves "https://h.example.com" "" "")
           (fun _ => Ok (mkResponse (Ok tt)
              (Ok (JDict [("total", JInt 3);
                          ("data", JList [JDict [("name", JStr "drill")];
                                          JDict [("name", JStr "saw")];
                                          JDict [("quantity", JInt 2)]])]))))
           "tool" "" 1 20
           [("total", JInt 3);
            ("data", JList [JDict [("name", JStr "drill")];
                            JDict [("name", JStr "saw")];
                            JDict [("quantity", JInt 2)]])]
           [("quantity", JInt 2)]
           [JDict [("name", JStr "drill")]; JDict [("name", JStr "saw")]] []
           (JInt 3)
           ltac:(discriminate) eq_refl eq_refl eq_refl eq_refl) eq_refl).
Defined.

(** ** Listings in one piece *)

(** A loop over objects whose blocks add the text [text] adds the numbered
    texts. *)
Lemma for_each_numbered (block : Z -> json -> string -> outcome string)
    (text : Z -> list (string * json) -> string) (ok : json -> bool) :
  (forall idx fields acc, ok (JDict fields) = true ->
     block idx (JDict fields) acc = Ok (acc +:+ text idx fields)) ->
  forall objects idx acc, forallb ok (List.map JDict objects) = true ->
  for_each block (List.map JDict objects) idx acc
    = Ok (acc +:+ numbered text idx objects).
Proof.
  intros Hb objects.
  induction objects as [|fields rest IH]; intros idx acc Hall;
    cbn [List.map for_each numbered].
  - unfold_monad. now rewrite append_empty_r.
  - cbn [List.map forallb] in Hall. apply andb_true_iff in Hall as [Hf Hr].
    rewrite (Hb idx fields acc Hf). unfold_monad.
    rewrite (IH (idx + 1)%Z _ Hr). now rewrite append_assoc.
Qed.

Lemma has_key_dict_get (k : string) (fields : list (string * json)) :
  has_key k (JDict fields) = true -> exists v, Py.dict_get k fields = Some v.
Proof.
  cbn [has_key]. destruct (Py.dict_get k fields) as [v|]; [now exists v | discriminate].
Qed.

Lemma location_block_text (idx : Z) (fields : list (string * json)) (acc : string) :
  location_entry_ok (JDict fields) = true ->
  location_block idx (JDict fields) acc = Ok (acc +:+ location_entry_text idx fields).
Proof.
  intros [Hn Hi]%andb_true_iff.
  destruct (has_key_dict_get _ _ Hn) as [name Hname].
  destruct (has_key_dict_get _ _ Hi) as [id Hid].
  unfold location_block, location_entry_text, name_text. unfold_monad.
  cbn [Py.getitem]. rewrite Hname, add_field_dict, Hid.
  now rewrite !append_assoc.
Qed.

Lemma location_block_ok (idx : Z) (location : json) :
  location_entry_ok location = true ->
  exists s, location_block idx location EmptyString = Ok s.
Proof.
  destruct location as [| | | | |fields]; try discriminate.
  intros H. rewrite (location_block_text idx fields EmptyString H). now eexists.
Qed.

Lemma has_results_objects (fields : list (string * json))
    (objects : list (list (string * json))) :
  Py.dict_get "data" fields = Some (JList (List.map JDict objects)) ->
  objects <> [] ->
  has_results (JDict fields) = Ok true.
Proof.
  intros Hd Hne. apply (has_results_list _ _ Hd). now destruct objects.
Qed.

(** The listing of [list_locations]: for a [data] list of objects that
    each have a [name] and an [id], the count in the heading is the number
    of locations on the page, and the entries follow in the order of the
    list, numbered from 1, each with its name, its description when it has
    a truthy one, and its id. *)
Theorem list_locations_listing (self : Valves) (net : Network)
    (fields : list (string * json)) (locations : list (list (string * json))) :
  homebox_url self <> EmptyString ->
  http_json net (locations_request self) = Ok (JDict fields) ->
  Py.dict_get "data" fields = Some (JList (List.map JDict locations)) ->
  locations <> [] ->
  forallb location_entry_ok (List.map JDict locations) = true ->
  returned (list_locations self net)
    = Ok ("Found " +:+ Str.of_Z (Z.of_nat (length locations)) +:+ " locations:"
            +:+ Str.nl +:+ Str.nl
            +:+ numbered location_entry_text 1 locations).
Proof.
  intros Hn Hj Hd Hne Hok. unfold returned.
  rewrite (list_locations_run _ _ Hn), Hj. cbn [fst]. unfold_monad.
  unfold locations_report. rewrite (has_results_objects _ _ Hd Hne). unfold_monad.
  cbn [Py.getitem]. rewrite Hd. cbn [Py.len Py.iter].
  rewrite (for_each_numbered location_block location_entry_text location_entry_ok
             location_block_text locations 1%Z _ Hok).
  cbn [run_report]. rewrite length_map. now rewrite !append_assoc.
Qed.

(** One location with no description: the entry has the name line and the
    id line, and no description line. *)
Lemma list_locations_listing_garage :
  returned (list_locations (mkValves "https://h.example.com" "" "")
              (fun _ => Ok (mkResponse (Ok tt)
                 (Ok (JDict [("data", JList [JDict [("id", JStr "g1");
                                                    ("name", JStr "Garage")]])])))))
    = Ok ("Found 1 locations:" +:+ Str.nl +:+ Str.nl
            +:+ "1. Garage" +:+ Str.nl +:+ "   ID: g1" +:+ Str.nl +:+ Str.nl).
Proof.
  exact (list_locations_listing
           (mkValves "https://h.example.com" "" "")
           (fun _ => Ok (mkResponse (Ok tt)
              (Ok (JDict [("data", JList [JDict [("id", JStr "g1");
                                                 ("name", JStr "Garage")]])]))))
           [("data", JList [JDict [("id", JStr "g1"); ("name", JStr "Garage")]])]
           [[("id", JStr "g1"); ("name", JStr "Garage")]]
           ltac:(discriminate) eq_refl eq_refl ltac:(discriminate) eq_refl).
Defined.

(** A location without a [name], or with a name and without an [id],
    costs the whole listing: [list_locations] returns the text of the
    [KeyError], whatever well-shaped locations stand before it. *)
Theorem location_without_name_or_id_error (self : Valves) (net : Network)
    (fields bad : list (string * json)) (good rest : list json) :
  homebox_url self <> EmptyString ->
  http_json net (locations_request self) = Ok (JDict fields) ->
  Py.dict_get "data" fields = Some (JList (good ++ JDict bad :: rest)) ->
  forallb location_entry_ok good = true ->
  (Py.dict_get "name" bad = None ->
   returned (list_locations self net) = Ok "Unexpected error: 'name'") /\
  (Py.dict_get "name" bad <> None -> Py.dict_get "id" bad = None ->
   returned (list_locations self net) = Ok "Unexpected error: 'id'").
Proof.
  intros Hn Hj Hd Hgood.
  assert (Hne : good ++ JDict bad :: rest <> []) by now destruct good.
  assert (Hrun : forall e, (forall idx, location_block idx (JDict bad) EmptyString = Raise e) ->
            returned (list_locations self net) = Ok (failure_text "Error listing locations: " e)).
  { intros e He. unfold returned. rewrite (list_locations_run _ _ Hn), Hj. cbn [fst].
    unfold_monad. unfold locations_report. rewrite (has_results_list _ _ Hd Hne).
    unfold_monad. cbn [Py.getitem]. rewrite Hd. cbn [Py.len Py.iter].
    now rewrite (for_each_raises location_block location_entry_ok location_block_appends
                   location_block_ok good (JDict bad) rest e Hgood He). }
  split.
  - intros Hname. apply (Hrun (KeyError "'name'")). intros idx.
    unfold location_block. now rewrite (getitem_missing _ _ Hname).
  - intros Hname Hid. apply (Hrun (KeyError "'id'")). intros idx.
    unfold location_block. unfold_monad. cbn [Py.getitem].
    destruct (Py.dict_get "name" bad) as [name|]; [|contradiction].
    now rewrite add_field_dict, Hid.
Qed.

(** Two locations, the second without an id. *)
Lemma location_without_id_error_second :
  returned (list_locations (mkValves "https://h.example.com" "" "")
              (fun _ => Ok (mkResponse (Ok tt)
                 (Ok (JDict [("data", JList [JDict [("id", JStr "g1"); ("name", JStr "Garage")];
                                             JDict [("name", JStr "Attic")]])])))))
    = Ok "Unexpected error: 'id'".
Proof.
  exact (proj2 (location_without_name_or_id_error
           (mkValves "https://h.example.com" "" "")
           (fun _ => Ok (mkResponse (Ok tt)
              (Ok (JDict [("data", JList [JDict [("id", JStr "g1"); ("name", JStr "Garage")];
                                          JDict [("name", JStr "Attic")]])]))))
           [("data", JList [JDict [("id", JStr "g1"); ("name", JStr "Garage")];
                            JDict [("name", JStr "Attic")]])]
           [("name", JStr "Attic")]
           [JDict [("id", JStr "g1"); ("name", JStr "Garage")]] []
           ltac:(discriminate) eq_refl eq_refl eq_refl)
         ltac:(discriminate) eq_refl).
Defined.

Lemma add_location_line (before : string) (fields : list (string * json)) (acc : string) :
  location_ok fields = true ->
  add_location before (JDict fields) acc = Ok (acc +:+ location_line before fields).
Proof.
  unfold location_ok, add_location, location_line. rewrite present_and_truthy_dict.
  destruct (field_value "location" fields) as [loc|] eqn:E.
  - intros Hl. unfold_monad. rewrite (getitem_field_value _ _ _ E).
    destruct loc as [| | | | |l]; try discriminate.
    destruct (has_key_dict_get _ _ Hl) as [name Hname].
    cbn [Py.getitem]. rewrite Hname. now rewrite ?append_assoc.
  - intros _. unfold_monad. now rewrite append_empty_r.
Qed.

Lemma search_item_block_text (idx : Z) (fields : list (string * json)) (acc : string) :
  item_ok (JDict fields) = true ->
  search_item_block idx (JDict fields) acc = Ok (acc +:+ search_item_text idx fields).
Proof.
  intros [Hn Hl]%andb_true_iff.
  destruct (has_key_dict_get _ _ Hn) as [name Hname].
  rewrite search_item_block_dict, (add_location_line _ _ _ Hl).
  unfold search_item_text, name_text. unfold_monad. cbn [Py.getitem]. rewrite Hname.
  now rewrite ?append_assoc.
Qed.

Lemma location_item_block_text (idx : Z) (fields : list (string * json)) (acc : string) :
  item_ok (JDict fields) = true ->
  location_item_block idx (JDict fields) acc = Ok (acc +:+ location_item_text idx fields).
Proof.
  intros [Hn Hl]%andb_true_iff.
  destruct (has_key_dict_get _ _ Hn) as [name Hname].
  rewrite location_item_block_dict.
  unfold location_item_text, name_text. unfold_monad. cbn [Py.getitem]. rewrite Hname.
  now rewrite ?append_assoc.
Qed.

(** The page of [search_items] in one piece: for a [data] list of
    well-shaped items, an integer [total] and a non-zero page size, the
    text is the heading with the server's [total] and the query as typed,
    the blocks of the items in the order of the list, numbered from 1, and
    the footer. *)
Theorem search_items_listing (self : Valves) (net : Network) (query : string)
    (page page_size total : Z)
    (fields : list (string * json)) (items : list (list (string * json))) :
  homebox_url self <> EmptyString ->
  http_json net (search_request self query page page_size) = Ok (JDict fields) ->
  Py.dict_get "data" fields = Some (JList (List.map JDict items)) ->
  items <> [] ->
  forallb item_ok (List.map JDict items) = true ->
  Py.dict_get "total" fields = Some (JInt total) ->
  page_size <> 0%Z ->
  returned (search_items self net query page page_size)
    = Ok ("Found " +:+ Str.of_Z total +:+ " items matching '" +:+ query +:+ "':"
            +:+ Str.nl +:+ Str.nl
            +:+ numbered search_item_text 1 items
            +:+ footer page ((total + page_size - 1) / page_size)%Z).
Proof.
  intros Hn Hj Hd Hne Hok Ht Hp. unfold returned.
  rewrite (search_items_run _ _ _ _ _ Hn), Hj. cbn [fst]. unfold_monad.
  unfold search_items_report. rewrite (has_results_objects _ _ Hd Hne). unfold_monad.
  cbn [Py.getitem]. rewrite Ht, Hd. cbn [Py.iter Py.str Py.repr].
  rewrite (for_each_numbered search_item_block search_item_text item_ok
             search_item_block_text items 1%Z _ Hok).
  rewrite (add_pagination_int _ _ _ _ _ Ht Hp). cbn [run_report].
  now rewrite ?append_assoc.
Qed.

(** Two items on the only page; the first has a location and a quantity
    of 0, the second an empty description. *)
Lemma search_items_listing_two_items :
  returned (search_items (mkValves "https://h.example.com" "" "")
              (fun _ => Ok (mkResponse (Ok tt)
                 (Ok (JDict [("total", JInt 2);
                             ("data", JList [JDict [("name", JStr "drill");
                                                    ("location", JDict [("name", JStr "Garage")]);
                                                    ("quantity", JInt 0)];
                                             JDict [("name", JStr "saw");
                                                    ("description", JStr EmptyString)]])]))))
              "tool" 1 20)
    = Ok ("Found 2 items matching 'tool':" +:+ Str.nl +:+ Str.nl
            +:+ "1. drill" +:+ Str.nl +:+ "   Location: Garage" +:+ Str.nl
            +:+ "   Quantity: 0" +:+ Str.nl +:+ Str.nl
            +:+ "2. saw" +:+ Str.nl +:+ Str.nl
            +:+ "Page 1 of 1" +:+ Str.nl).
Proof.
  exact (search_items_listing
           (mkValves "https://h.example.com" "" "")
           (fun _ => Ok (mkResponse (Ok tt)
              (Ok (JDict [("total", JInt 2);
                          ("data", JList [JDict [("name", JStr "drill");
                                                 ("location", JDict [("name", JStr "Garage")]);
                                                 ("quantity", JInt 0)];
                                          JDict [("name", JStr "saw");
                                                 ("description", JStr EmptyString)]])]))))
           "tool" 1 20 2
           [("total", JInt 2);
            ("data", JList [JDict [("name", JStr "drill");
                                   ("location", JDict [("name", JStr "Garage")]);
                                   ("quantity", JInt 0)];
                            JDict [("name", JStr "saw");
                                   ("description", JStr EmptyString)]])]
           [[("name", JStr "drill"); ("location", JDict [("name", JStr "Garage")]);
             ("quantity", JInt 0)];
            [("name", JStr "saw"); ("description", JStr EmptyString)]]
           ltac:(discriminate) eq_refl eq_refl ltac:(discriminate) eq_refl eq_refl
           ltac:(discriminate)).
Defined.

Lemma location_name_of_text (fields first : list (string * json)) (rest : list json) :
  Py.dict_get "data" fields = Some (JList (JDict first :: rest)) ->
  location_ok first = true ->
  exists name, location_name_of (JDict fields) = Ok name /\
               Py.str name = location_name_text first.
Proof.
  intros Hd Hl. rewrite (location_name_of_first _ _ _ Hd), present_and_truthy_dict.
  unfold_monad. unfold location_ok in Hl. unfold location_name_text.
  destruct (field_value "location" first) as [loc|] eqn:E.
  - rewrite (getitem_field_value _ _ _ E).
    destruct loc as [| | | | |l]; try discriminate.
    destruct (has_key_dict_get _ _ Hl) as [name Hname].
    exists name. cbn [Py.getitem]. unfold name_text. now rewrite Hname.
  - now exists (JStr "Unknown Location").
Qed.

(** The page of [search_items_by_location] in one piece: the heading with
    the server's [total] and the name read off the first item, the blocks
    of the items (name, description, asset id and quantity) numbered from
    1, and the footer.  The identifier asked for is not in the text. *)
Theorem search_items_by_location_listing (self : Valves) (net : Network)
    (location_id : string) (page page_size total : Z)
    (fields first : list (string * json)) (rest : list (list (string * json))) :
  homebox_url self <> EmptyString ->
  http_json net (location_items_request self location_id page page_size)
    = Ok (JDict fields) ->
  Py.dict_get "data" fields = Some (JList (List.map JDict (first :: rest))) ->
  forallb item_ok (List.map JDict (first :: rest)) = true ->
  Py.dict_get "total" fields = Some (JInt total) ->
  page_size <> 0%Z ->
  returned (search_items_by_location self net location_id page page_size)
    = Ok ("Found " +:+ Str.of_Z total +:+ " items in location '"
            +:+ location_name_text first +:+ "':" +:+ Str.nl +:+ Str.nl
            +:+ numbered location_item_text 1 (first :: rest)
            +:+ footer page ((total + page_size - 1) / page_size)%Z).
Proof.
  intros Hn Hj Hd Hok Ht Hp. unfold returned.
  rewrite (search_items_by_location_run _ _ _ _ _ Hn), Hj. cbn [fst]. unfold_monad.
  unfold location_items_report.
  rewrite (has_results_objects _ _ Hd ltac:(discriminate)). unfold_monad.
  assert (Hl : location_ok first = true).
  { cbn [List.map forallb] in Hok. apply andb_true_iff in Hok as [Hf _].
    now apply andb_true_iff in Hf as [_ Hf]. }
  destruct (location_name_of_text fields first (List.map JDict rest) Hd Hl)
    as (name & -> & Hname).
  cbn [Py.getitem]. rewrite Ht, Hd. cbn [Py.iter].
  rewrite (for_each_numbered location_item_block location_item_text item_ok
             location_item_block_text (first :: rest) 1%Z _ Hok).
  rewrite (add_pagination_int _ _ _ _ _ Ht Hp). cbn [run_report].
  unfold location_heading. rewrite Hname. cbn [Py.str Py.repr].
  now rewrite ?append_assoc.
Qed.

(** A page of two items of 45, asked for under the identifier [attic-id]:
    the name comes from the first item, the manufacturer of the second is
    not shown, and the hint points to page 2. *)
Lemma search_items_by_location_listing_garage :
  returned (search_items_by_location (mkValves "https://h.example.com" "" "")
              (fun _ => Ok (mkResponse (Ok tt)
                 (Ok (JDict [("total", JInt 45);
                             ("data", JList [JDict [("name", JStr "drill");
                                                    ("location", JDict [("name", JStr "Garage")])];
                                             JDict [("name", JStr "saw");
                                                    ("manufacturer", JStr "Acme");
                                                    ("quantity", JInt 3)]])]))))
              "attic-id" 1 2)
    = Ok ("Found 45 items in location 'Garage':" +:+ Str.nl +:+ Str.nl
            +:+ "1. drill" +:+ Str.nl +:+ Str.nl
            +:+ "2. saw" +:+ Str.nl +:+ "   Quantity: 3" +:+ Str.nl +:+ Str.nl
            +:+ "Page 1 of 23" +:+ Str.nl +:+ "Use 'page=2' to see more results.").
Proof.
  exact (search_items_by_location_listing
           (mkValves "https://h.example.com" "" "")
           (fun _ => Ok (mkResponse (Ok tt)
              (Ok (JDict [("total", JInt 45);
                          ("data", JList [JDict [("name", JStr "drill");
                                                 ("location", JDict [("name", JStr "Garage")])];
                                          JDict [("name", JStr "saw");
                                                 ("manufacturer", JStr "Acme");
                                                 ("quantity", JInt 3)]])]))))
           "attic-id" 1 2 45
           [("total", JInt 45);
            ("data", JList [JDict [("name", JStr "drill");
                                   ("location", JDict [("name", JStr "Garage")])];
                            JDict [("name", JStr "saw");
                                   ("manufacturer", JStr "Acme");
                                   ("quantity", JInt 3)]])]
           [("name", JStr "drill"); ("location", JDict [("name", JStr "Garage")])]
           [[("name", JStr "saw"); ("manufacturer", JStr "Acme"); ("quantity", JInt 3)]]
           ltac:(discriminate) eq_refl eq_refl eq_refl eq_refl ltac:(discriminate)).
Defined.

(** ** The footer *)

(** For a page size of at least 1 the footer of lines 111-116 and 307-312
    names the ceiling of [total / page_size] as the number of pages, and
    gives the hint for the next page exactly when [page * page_size] is
    below [total], that is, when the pages up to this one do not hold all
    the matches. *)
Theorem pagination_hint_iff_more (fields : list (string * json))
    (total page page_size : Z) (result : string) :
  Py.dict_get "total" fields = Some (JInt total) ->
  (0 < page_size)%Z ->
  add_pagination (JDict fields) page page_size result
    = Ok (result +:+ "Page " +:+ Str.of_Z page +:+ " of "
            +:+ Str.of_Z (ceil_div total page_size) +:+ Str.nl
            +:+ (if (page * page_size <? total)%Z
                 then "Use 'page=" +:+ Str.of_Z (page + 1) +:+ "' to see more results."
                 else EmptyString)).
Proof.
  intros Ht Hp. assert (Hp0 : page_size <> 0%Z) by lia.
  rewrite (add_pagination_int _ _ _ _ _ Ht Hp0).
  rewrite (floor_formula_is_ceiling _ _ Hp). unfold footer.
  pose proof (ceil_div_bounds total page_size Hp) as Hb.
  generalize dependent (ceil_div total page_size). intros pages Hb.
  replace (page <? pages)%Z with (page * page_size <? total)%Z.
  - now rewrite ?append_assoc.
  - destruct (page <? pages)%Z eqn:E.
    + apply Z.ltb_lt in E. apply Z.ltb_lt.
      assert (page * page_size <= (pages - 1) * page_size)%Z
        by (apply Z.mul_le_mono_nonneg_r; lia).
      lia.
    + apply Z.ltb_ge in E. apply Z.ltb_ge.
      assert (pages * page_size <= page * page_size)%Z
        by (apply Z.mul_le_mono_nonneg_r; lia).
      lia.
Qed.

(** The last page of 25 matches in pages of 10: no hint. *)
Lemma pagination_hint_iff_more_last_page :
  add_pagination (JDict [("total", JInt 25)]) 3 10 EmptyString
    = Ok ("Page 3 of 3" +:+ Str.nl).
Proof.
  exact (pagination_hint_iff_more [("total", JInt 25)] 25 3 10 EmptyString
           eq_refl eq_refl).
Defined.

(** ** Item details in one piece *)

Lemma custom_field_line_text (idx : Z) (fields : list (string * json)) (acc : string) :
  custom_field_ok (JDict fields) = true ->
  custom_field_line idx (JDict fields) acc = Ok (acc +:+ custom_field_text idx fields).
Proof.
  intros [Hn Hv]%andb_true_iff.
  destruct (has_key_dict_get _ _ Hn) as [name Hname].
  destruct (has_key_dict_get _ _ Hv) as [value Hvalue].
  unfold custom_field_line, custom_field_text, name_text. unfold_monad.
  cbn [Py.getitem]. rewrite Hname, Hvalue. now rewrite ?append_assoc.
Qed.

Lemma details_head_text (fields : list (string * json)) :
  item_ok (JDict fields) = true ->
  details_head (JDict fields)
    = Ok ("Item Details: " +:+ name_text fields +:+ Str.nl +:+ Str.nl
            +:+ field_text "Description: " (Str.nl +:+ Str.nl) "description" fields
            +:+ "Basic Information:" +:+ Str.nl
            +:+ field_text "- Asset ID: " Str.nl "assetId" fields
            +:+ quantity_text "- Quantity: " fields
            +:+ field_text "- Manufacturer: " Str.nl "manufacturer" fields
            +:+ field_text "- Model Number: " Str.nl "modelNumber" fields
            +:+ field_text "- Serial Number: " Str.nl "serialNumber" fields
            +:+ location_line (Str.nl +:+ "Location: ") fields
            +:+ purchase_block fields).
Proof.
  intros [Hn Hl]%andb_true_iff.
  destruct (has_key_dict_get _ _ Hn) as [name Hname].
  rewrite details_head_dict, (add_location_line _ _ _ Hl).
  unfold name_text. unfold_monad. cbn [Py.getitem]. rewrite Hname.
  now rewrite ?append_empty_r.
Qed.

Lemma details_tail_text (fields : list (string * json))
    (custom : list (list (string * json))) :
  (field_value "fields" fields = None /\ custom = []) \/
    (field_value "fields" fields = Some (JList (List.map JDict custom)) /\
     forallb custom_field_ok (List.map JDict custom) = true) ->
  details_tail (JDict fields) EmptyString
    = Ok (custom_fields_text custom
            +:+ field_text (Str.nl +:+ "Notes:" +:+ Str.nl) Str.nl "notes" fields).
Proof.
  unfold details_tail, add_custom_fields. rewrite present_and_truthy_dict.
  intros [[Hf ->] | [Hf Hok]]; rewrite Hf; unfold_monad.
  - now rewrite add_field_dict.
  - rewrite (getitem_field_value _ _ _ Hf). cbn [Py.iter].
    rewrite (for_each_numbered custom_field_line custom_field_text custom_field_ok
               custom_field_line_text custom 1%Z _ Hok).
    rewrite add_field_dict. unfold custom_fields_text.
    destruct custom as [|c custom'].
    + unfold field_value in Hf.
      destruct (Py.dict_get "fields" fields) as [x|]; [|discriminate].
      destruct (Py.truthy x) eqn:Hx; [|discriminate].
      injection Hf as ->. discriminate Hx.
    + now rewrite ?append_assoc.
Qed.

(** The report of [get_item_details] in one piece, for an item with a
    name, a named location if it has a truthy one, and custom fields that
    are objects with a name and a value: title, description, the basic
    information under its heading (which is there even when no basic field
    is), location, purchase block, warranty block, custom fields and
    notes, in this order. *)
Theorem get_item_details_text (self : Valves) (net : Network) (item_id : string)
    (fields : list (string * json)) (custom : list (list (string * json))) :
  homebox_url self <> EmptyString ->
  http_json net (details_request self item_id) = Ok (JDict fields) ->
  item_ok (JDict fields) = true ->
  (field_value "fields" fields = None /\ custom = []) \/
    (field_value "fields" fields = Some (JList (List.map JDict custom)) /\
     forallb custom_field_ok (List.map JDict custom) = true) ->
  returned (get_item_details self net item_id) = Ok (details_text fields custom).
Proof.
  intros Hn Hj Hok Hc. unfold returned.
  rewrite (get_item_details_run _ _ _ Hn), Hj. cbn [fst]. unfold_monad.
  rewrite item_details_report_dict, (details_head_text _ Hok), (details_tail_text _ _ Hc).
  unfold_monad. cbn [run_report]. unfold details_text. now rewrite ?append_assoc.
Qed.

(** An item with a name, a price of 0, one custom field and notes. *)
Lemma get_item_details_text_drill :
  returned (get_item_details (mkValves "https://h.example.com" "" "")
              (fun _ => Ok (mkResponse (Ok tt)
                 (Ok (JDict [("name", JStr "drill");
                             ("purchasePrice", JInt 0);
                             ("purchaseFrom", JStr "Acme");
                             ("fields", JList [JDict [("name", JStr "colour");
                                                      ("value", JStr "red")]]);
                             ("notes", JStr "left shelf")]))))
              "abc")
    = Ok ("Item Details: drill" +:+ Str.nl +:+ Str.nl
            +:+ "Basic Information:" +:+ Str.nl
            +:+ Str.nl +:+ "Purchase Information:" +:+ Str.nl
            +:+ "- Purchased From: Acme" +:+ Str.nl
            +:+ Str.nl +:+ "Custom Fields:" +:+ Str.nl
            +:+ "- colour: red" +:+ Str.nl
            +:+ Str.nl +:+ "Notes:" +:+ Str.nl +:+ "left shelf" +:+ Str.nl).
Proof.
  exact (get_item_details_text
           (mkValves "https://h.example.com" "" "")
           (fun _ => Ok (mkResponse (Ok tt)
              (Ok (JDict [("name", JStr "drill");
                          ("purchasePrice", JInt 0);
                          ("purchaseFrom", JStr "Acme");
                          ("fields", JList [JDict [("name", JStr "colour");
                                                   ("value", JStr "red")]]);
                          ("notes", JStr "left shelf")]))))
           "abc"
           [("name", JStr "drill");
            ("purchasePrice", JInt 0);
            ("purchaseFrom", JStr "Acme");
            ("fields", JList [JDict [("name", JStr "colour"); ("value", JStr "red")]]);
            ("notes", JStr "left shelf")]
           [[("name", JStr "colour"); ("value", JStr "red")]]
           ltac:(discriminate) eq_refl eq_refl (or_intror (conj eq_refl eq_refl))).
Defined.

(** A body that is not an item: an object without a [name], a JSON array
    and JSON [null] each make [get_item_details] return the text of the
    exception that [item['name']] raises. *)
Theorem get_item_details_body_without_name (self : Valves) (net : Network)
    (item_id : string) (body : json) :
  homebox_url self <> EmptyString ->
  http_json net (details_request self item_id) = Ok body ->
  ((exists fields, body = JDict fields /\ Py.dict_get "name" fields = None) ->
   returned (get_item_details self net item_id) = Ok "Unexpected error: 'name'") /\
  ((exists items, body = JList items) ->
   returned (get_item_details self net item_id)
     = Ok "Unexpected error: list indices must be integers or slices, not str") /\
  (body = JNull ->
   returned (get_item_details self net item_id)
     = Ok "Unexpected error: 'NoneType' object is not subscriptable").
Proof.
  intros Hn Hj. unfold returned.
  rewrite (get_item_details_run _ _ _ Hn), Hj. cbn [fst]. unfold_monad.
  unfold item_details_report, details_head. unfold_monad.
  split; [|split].
  - intros (fields & -> & Hname). now rewrite (getitem_missing _ _ Hname).
  - intros (items & ->). reflexivity.
  - intros ->. reflexivity.
Qed.

(** An object that holds an error message in place of an item. *)
Lemma get_item_details_body_without_name_message :
  returned (get_item_details (mkValves "https://h.example.com" "" "")
              (fun _ => Ok (mkResponse (Ok tt) (Ok (JDict [("error", JStr "no such item")]))))
              "abc")
    = Ok "Unexpected error: 'name'".
Proof.
  exact (proj1 (get_item_details_body_without_name
           (mkValves "https://h.example.com" "" "")
           (fun _ => Ok (mkResponse (Ok tt) (Ok (JDict [("error", JStr "no such item")]))))
           "abc" (JDict [("error", JStr "no such item")])
           ltac:(discriminate) eq_refl)
         (ex_intro _ [("error", JStr "no such item")] (conj eq_refl eq_refl))).
Defined.

(** A custom field without a [name], or with a name and without a
    [value], costs the whole report: [get_item_details] returns the text of
    the [KeyError] and nothing of the item. *)
Theorem custom_field_without_name_or_value_error (self : Valves) (net : Network)
    (item_id : string) (fields bad : list (string * json)) (good rest : list json) :
  homebox_url self <> EmptyString ->
  http_json net (details_request self item_id) = Ok (JDict fields) ->
  item_ok (JDict fields) = true ->
  Py.dict_get "fields" fields = Some (JList (good ++ JDict bad :: rest)) ->
  forallb custom_field_ok good = true ->
  (Py.dict_get "name" bad = None ->
   returned (get_item_details self net item_id) = Ok "Unexpected error: 'name'") /\
  (Py.dict_get "name" bad <> None -> Py.dict_get "value" bad = None ->
   returned (get_item_details self net item_id) = Ok "Unexpected error: 'value'").
Proof.
  intros Hn Hj Hok Hf Hgood.
  assert (Hv : field_value "fields" fields = Some (JList (good ++ JDict bad :: rest))).
  { unfold field_value. rewrite Hf. now destruct good. }
  assert (Hrun : forall e,
            (forall idx, custom_field_line idx (JDict bad) EmptyString = Raise e) ->
            returned (get_item_details self net item_id)
              = Ok (failure_text "Error retrieving item details: " e)).
  { intros e He. unfold returned. rewrite (get_item_details_run _ _ _ Hn), Hj. cbn [fst].
    unfold_monad. rewrite item_details_report_dict, (details_head_text _ Hok).
    unfold_monad. unfold details_tail, add_custom_fields.
    rewrite present_and_truthy_dict, Hv. unfold_monad.
    rewrite (getitem_field_value _ _ _ Hv). cbn [Py.iter].
    now rewrite (for_each_raises custom_field_line custom_field_ok custom_field_line_appends
                   custom_field_line_ok good (JDict bad) rest e Hgood He). }
  split.
  - intros Hname. apply (Hrun (KeyError "'name'")). intros idx.
    unfold custom_field_line. now rewrite (getitem_missing _ _ Hname).
  - intros Hname Hvalue. apply (Hrun (KeyError "'value'")). intros idx.
    unfold custom_field_line. unfold_monad. cbn [Py.getitem].
    destruct (Py.dict_get "name" bad) as [name|]; [|contradiction].
    now rewrite Hvalue.
Qed.

(** A custom field that has a name and no value. *)
Lemma custom_field_without_value_error_colour :
  returned (get_item_details (mkValves "https://h.example.com" "" "")
              (fun _ => Ok (mkResponse (Ok tt)
                 (Ok (JDict [("name", JStr "drill");
                             ("fields", JList [JDict [("name", JStr "colour")]])]))))
              "abc")
    = Ok "Unexpected error: 'value'".
Proof.
  exact (proj2 (custom_field_without_name_or_value_error
           (mkValves "https://h.example.com" "" "")
           (fun _ => Ok (mkResponse (Ok tt)
              (Ok (JDict [("name", JStr "drill");
                          ("fields", JList [JDict [("name", JStr "colour")]])]))))
           "abc"
           [("name", JStr "drill"); ("fields", JList [JDict [("name", JStr "colour")]])]
           [("name", JStr "colour")] [] []
           ltac:(discriminate) eq_refl eq_refl eq_refl eq_refl)
         ltac:(discriminate) eq_refl).
Defined.

(** ** Headers, and fields that are not read *)

(** The tool sends no header of its own beyond the four it knows: the two
    JSON headers alone when either proxy setting is empty, and these with
    the two proxy headers when both are set. *)
Theorem get_headers_names (self : Valves) :
  (cf_client_id self <> EmptyString /\ cf_client_secret self <> EmptyString ->
   dom (_get_headers self)
     = ({["Content-Type"; "Accept"; "CF-Access-Client-Id"; "CF-Access-Client-Secret"]}
        : gset string)) /\
  (cf_client_id self = EmptyString \/ cf_client_secret self = EmptyString ->
   dom (_get_headers self) = ({["Content-Type"; "Accept"]} : gset string)).
Proof.
  split.
  - intros [Hi Hs]. rewrite (get_headers_paired self Hi Hs). unfold json_headers.
    rewrite !dom_insert_L, dom_empty_L. set_solver.
  - intros He. rewrite (get_headers_plain self He). unfold json_headers.
    rewrite !dom_insert_L, dom_empty_L. set_solver.
Qed.

Lemma dict_get_cons_ne (k k' : string) (v : json) (fields : list (string * json)) :
  k' <> k -> Py.dict_get k' ((k, v) :: fields) = Py.dict_get k' fields.
Proof. intros H. cbn [Py.dict_get]. apply String.eqb_neq in H. now rewrite H. Qed.

(** The block of an item in the listing of [search_items_by_location]
    reads the name, the description, the asset id and the quantity and
    nothing else: a value under any other key (manufacturer, model number,
    location, ...) leaves the block as it is. *)
Theorem location_item_block_reads_four_keys (idx : Z) (acc : string)
    (fields : list (string * json)) (k : string) (v : json) :
  ~ In k ["name"; "description"; "assetId"; "quantity"] ->
  location_item_block idx (JDict ((k, v) :: fields)) acc
    = location_item_block idx (JDict fields) acc.
Proof.
  intros Hk. cbn [In] in Hk. apply location_item_block_congr.
  split; [|split].
  - apply dict_get_cons_ne. intros <-. tauto.
  - apply dict_get_cons_ne. intros <-. tauto.
  - intros k' Hin. unfold field_value. rewrite dict_get_cons_ne; [reflexivity|].
    cbn in Hin. intros <-. tauto.
Qed.

(** A manufacturer does not show in the block. *)
Lemma location_item_block_reads_four_keys_manufacturer :
  location_item_block 1 (JDict [("manufacturer", JStr "Acme"); ("name", JStr "saw")])
    EmptyString
  = Ok ("1. saw" +:+ Str.nl +:+ Str.nl).
Proof.
  exact (location_item_block_reads_four_keys 1 EmptyString [("name", JStr "saw")]
           "manufacturer" (JStr "Acme")
           ltac:(cbn; intuition discriminate)).
Defined.

Lemma getitem_raises_no_request_exception (v : json) (k : string) (e : exn) :
  Py.getitem v k = Raise e -> is_RequestException e = false.
Proof.
  destruct v as [| | | | |fields]; cbn [Py.getitem]; try (intros [= <-]; reflexivity).
  destruct (Py.dict_get k fields); [discriminate | intros [= <-]; reflexivity].
Qed.

(** [search_items_by_location] reads the name of the location off the
    first item before anything else of the page: when that item has a
    truthy [location] from which no [name] can be read (an object without
    the key, or a string), the operation returns the text of that
    exception, whatever the other items and [total] are. *)
Theorem first_location_without_name_error (self : Valves) (net : Network)
    (location_id : string) (page page_size : Z)
    (fields first : list (string * json)) (rest : list json) (location : json) (e : exn) :
  homebox_url self <> EmptyString ->
  http_json net (location_items_request self location_id page page_size)
    = Ok (JDict fields) ->
  Py.dict_get "data" fields = Some (JList (JDict first :: rest)) ->
  field_value "location" first = Some location ->
  Py.getitem location "name" = Raise e ->
  returned (search_items_by_location self net location_id page page_size)
    = Ok ("Unexpected error: " +:+ str_exn e).
Proof.
  intros Hn Hj Hd Hl He. unfold returned.
  rewrite (search_items_by_location_run _ _ _ _ _ Hn), Hj. cbn [fst]. unfold_monad.
  unfold location_items_report.
  rewrite (has_results_list _ _ Hd ltac:(discriminate)). unfold_monad.
  rewrite (location_name_of_first _ _ _ Hd), present_and_truthy_dict, Hl. unfold_monad.
  rewrite (getitem_field_value _ _ _ Hl), He. cbn [run_report].
  pose proof (getitem_raises_no_request_exception _ _ _ He) as Hr.
  now destruct e.
Qed.

(** The location of the first item is the string [Garage], not an
    object. *)
Lemma first_location_without_name_error_string :
  returned (search_items_by_location (mkValves "https://h.example.com" "" "")
              (fun _ => Ok (mkResponse (Ok tt)
                 (Ok (JDict [("total", JInt 1);
                             ("data", JList [JDict [("name", JStr "drill");
                                                    ("location", JStr "Garage")]])]))))
              "g1" 1 20)
    = Ok "Unexpected error: string indices must be integers, not 'str'".
Proof.
  exact (first_location_without_name_error
           (mkValves "https://h.example.com" "" "")
           (fun _ => Ok (mkResponse (Ok tt)
              (Ok (JDict [("total", JInt 1);
                          ("data", JList [JDict [("name", JStr "drill");
                                                 ("location", JStr "Garage")]])]))))
           "g1" 1 20
           [("total", JInt 1);
            ("data", JList [JDict [("name", JStr "drill"); ("location", JStr "Garage")]])]
           [("name", JStr "drill"); ("location", JStr "Garage")] []
           (JStr "Garage")
           (TypeError "string indices must be integers, not 'str'")
           ltac:(discriminate) eq_refl eq_refl eq_refl eq_refl).
Defined.

(** ** The purchase block *)

(** On an object [purchase_info] never raises; its list is empty exactly
    when none of the source, the price and the date of the purchase is
    present and truthy, and the block is then left out altogether, heading
    included; otherwise the heading is followed by the lines, one per
    line. *)
Theorem purchase_block_rule (fields : list (string * json)) (result : string) :
  exists info,
    purchase_info (JDict fields) = Ok info /\
    (info = [] <->
       field_value "purchaseFrom" fields = None /\
       field_value "purchasePrice" fields = None /\
       field_value "purchaseTime" fields = None) /\
    add_info_block (Str.nl +:+ "Purchase Information:" +:+ Str.nl) info result
      = match info with
        | [] => result
        | _ => result +:+ Str.nl +:+ "Purchase Information:" +:+ Str.nl
                 +:+ String.concat Str.nl info +:+ Str.nl
        end.
Proof.
  exists (purchase_lines fields). split; [exact (purchase_info_dict fields)|]. split.
  - unfold purchase_lines, info_line.
    destruct (field_value "purchaseFrom" fields);
      destruct (field_value "purchasePrice" fields);
      destruct (field_value "purchaseTime" fields);
      cbn; split; try discriminate; try tauto;
      intros (H1 & H2 & H3); discriminate.
  - destruct (purchase_lines fields); [reflexivity|].
    cbn [add_info_block]. now rewrite ?append_assoc.
Qed.
